(** * compare_rootfiles: key enumeration, set comparison and bin-by-bin
      content comparison of two ROOT files

    A shallow embedding of [rootutils.py] and [compare_rootfiles.py].
    Python values that the program can observe are kept: a function prints
    (an output trace), returns a value ([None] included) or raises. *)

From Stdlib Require Import ZArith Ascii String List Bool Lia.
From Stdlib Require Import Floats.SpecFloat.
From stdpp Require Import gmap strings list sorting pretty.

#[local] Set Warnings "-clear-no-such-hyp".

Local Open Scope string_scope.
Local Open Scope list_scope.
Local Open Scope Z_scope.

(** ** The fragment of the Python runtime the scripts rely on *)

Module Py.

(** Exceptions the two scripts can raise.  [SystemExit] carries the
    argument of [exit(...)]. *)
Inductive exn :=
| NameError (name : string)
| TypeError
| ZeroDivisionError
| AssertionError (msg : string)
| SystemExit (code : Z).

Inductive result (A : Type) :=
| Ok (a : A)
| Raise (e : exn).
Arguments Ok {A} a.
Arguments Raise {A} e.

Definition rbind {A B} (r : result A) (f : A -> result B) : result B :=
  match r with
  | Ok a => f a
  | Raise e => Raise e
  end.

Fixpoint mapR {A B} (f : A -> result B) (l : list A) : result (list B) :=
  match l with
  | [] => Ok []
  | a :: l' => rbind (f a) (fun b => rbind (mapR f l') (fun bs => Ok (b :: bs)))
  end.

(** A Python [float] is an IEEE-754 binary64 value. *)
Definition float := spec_float.
Definition prec : Z := 53.
Definition emax : Z := 1024.

Definition float_of_int (n : Z) : float := binary_normalize prec emax n 0 false.

(** [a == b] and [a != b] on floats: IEEE comparison, NaN differs from
    everything, the two zeros are equal. *)
Definition float_eq (a b : float) : bool := SFeqb a b.
Definition float_ne (a b : float) : bool := negb (SFeqb a b).

Definition float_sub (a b : float) : float := SFsub prec emax a b.
Definition float_mul (a b : float) : float := SFmul prec emax a b.

(** [a / b] on floats raises on a zero divisor of either sign. *)
Definition float_truediv (a b : float) : result float :=
  if float_eq b (S754_zero false) then Raise ZeroDivisionError
  else Ok (SFdiv prec emax a b).

(** [a / b] on (small) ints: true division, a float. *)
Definition int_truediv (a b : Z) : result float :=
  if b =? 0 then Raise ZeroDivisionError
  else Ok (SFdiv prec emax (float_of_int a) (float_of_int b)).

(** [range(0, n)]. *)
Definition range (n : Z) : list Z := map Z.of_nat (seq 0 (Z.to_nat n)).

(** What [exit(v)] makes of a returned value, and what the interpreter
    makes of an uncaught exception.  All integers the scripts pass lie
    in 0..13. *)
Definition exit_status (r : result (option Z)) : Z :=
  match r with
  | Ok None => 0
  | Ok (Some n) => n
  | Raise (SystemExit c) => c
  | Raise _ => 1
  end.

End Py.
Import Py.

(** ** ROOT objects, as far as the scripts call them *)

Record TObject := {
  GetName : string;
  ClassName : string;
  InheritsFromTH1 : bool;         (* h.Class().InheritsFrom('TH1') *)
  GetDimension : Z;
  GetNcells : Z;
  GetBinContent : Z -> float;
  Integral : float                (* h.Integral(0, -1) *)
}.

(** ** Console output *)

Inductive event :=
| PrintHeader (name : string)
| PrintNotHistograms (c1 c2 : string)
| PrintDifferentDimensions (d1 d2 : Z)
| PrintDifferentNcells (n1 n2 : Z)
| PrintBin (b : Z) (c1 c2 diff : float)
| PrintDifferentSameIntegral (name : string) (integral1 : float)
| PrintDifferentIntegral (name : string) (integral1 integral2 pct : float)
| PrintEqual (name : string)
| PrintOK
| PrintMissingFrom1 (n total : Z) (pct : float)
| PrintMissingFrom2 (n total : Z) (pct : float)
| PrintCommon (n total : Z) (pct : float)
| PrintPlot (plot : string)
| PrintBlank
| PrintWarnNothingInCommon
| PrintSameContent (ok tot : Z) (pct : float)
| PrintDifferent (bad tot : Z) (pct : float)
| PrintSameFiles
| PrintTotalKeys (n : Z)
| PrintNoKeysMatching (pattern : string)
| PrintMatching (pattern : string) (n : Z)
| PrintAllExcluded (pattern : string)
| PrintNotMatching (pattern : string) (n : Z)
| PrintErrorInDiff
| PrintDiffStdout (stdout : string).

(** A computation prints, then returns or raises. *)
Definition M (A : Type) : Type := (list event * result A)%type.

Definition ret {A} (a : A) : M A := ([], Ok a).
Definition raise {A} (e : exn) : M A := ([], Raise e).
Definition lift {A} (r : result A) : M A := ([], r).
Definition print (e : event) : M unit := ([e], Ok tt).
Definition bind {A B} (m : M A) (f : A -> M B) : M B :=
  match m with
  | (out, Ok a) => (out ++ fst (f a), snd (f a))
  | (out, Raise e) => (out, Raise e)
  end.

Declare Scope py_scope.
Delimit Scope py_scope with py.
Notation "'let*' x ':=' m 'in' k" := (bind m (fun x => k))
  (at level 10, x pattern, m at level 200, k at level 200) : py_scope.
Notation "m '>>' k" := (bind m (fun _ => k))
  (at level 65, right associativity) : py_scope.
Local Open Scope py_scope.

Definition output {A} (m : M A) : list event := fst m.
Definition outcome {A} (m : M A) : result A := snd m.

Arguments bind : simpl never.
Arguments outcome : simpl never.
Arguments output : simpl never.

(** ** compare_rootfiles.compare_plot *)

Section ComparePlot.
Variables h1 h2 : TObject.
Variable verbosity : Z.

Definition name : string := GetName h1.

(** The closure [print_header] with its [nonlocal printed_header]: takes
    the flag, returns the new one. *)
Definition print_header (printed_header : bool) : M bool :=
  if negb printed_header then print (PrintHeader name) >> ret true
  else ret printed_header.

Definition print_wrong_plot : bool := 2 <=? verbosity.
Definition print_good_plot : bool := 4 <=? verbosity.
Definition print_every_bin : bool := 3 <=? verbosity.
Definition print_ok : bool := 5 <=? verbosity.

(** The loop [for b in range(0, ncells1)] over the cells still to visit;
    the state is [(printed_header, ok_content)]. *)
Fixpoint scan_bins (bins : list Z) (printed_header ok_content : bool) : M (bool * bool) :=
  match bins with
  | [] => ret (printed_header, ok_content)
  | b :: bins' =>
      let c1 := GetBinContent h1 b in
      let c2 := GetBinContent h2 b in
      if float_ne c1 c2 then
        if print_every_bin then
          let* ph := print_header printed_header in
          print (PrintBin b c1 c2 (float_sub c2 c1)) >>
          scan_bins bins' ph false
        else ret (printed_header, false)          (* break *)
      else scan_bins bins' printed_header ok_content
  end.

Definition report_plot (ok_content : bool) : M unit :=
  if (print_wrong_plot || print_good_plot) && negb print_every_bin then
    if negb ok_content then
      let integral1 := Integral h1 in
      let integral2 := Integral h2 in
      if float_eq integral1 integral2 then
        print (PrintDifferentSameIntegral name integral1)
      else
        let* q := lift (float_truediv integral2 integral1) in
        print (PrintDifferentIntegral name integral1 integral2
                 (float_mul (float_of_int 100) (float_sub q (float_of_int 1))))
    else if print_good_plot then print (PrintEqual name)
    else ret tt
  else ret tt.

(** Returns [None] on the three early [return]s, [Some ok_content] at
    the end. *)
Definition compare_plot : M (option bool) :=
  if negb (InheritsFromTH1 h1) || negb (InheritsFromTH1 h2) then
    (if 1 <=? verbosity then
       print_header false >>
       print (PrintNotHistograms (ClassName h1) (ClassName h2))
     else ret tt) >>
    ret None
  else if negb (GetDimension h1 =? GetDimension h2) then
    print_header false >>
    print (PrintDifferentDimensions (GetDimension h1) (GetDimension h2)) >>
    ret None
  else
    let ncells1 := GetNcells h1 in
    let ncells2 := GetNcells h2 in
    if negb (ncells1 =? ncells2) then
      print_header false >>
      print (PrintDifferentNcells ncells1 ncells2) >>
      ret None
    else
      let* (printed_header, ok_content) := scan_bins (range ncells1) false true in
      report_plot ok_content >>
      (if ok_content && print_ok then
         print_header printed_header >> print PrintOK
       else ret tt) >>
      ret (Some ok_content).

End ComparePlot.

(** ** rootutils.get_list_of_keys_deep *)

(** A key of a directory: [IsFolder()] is false for [KeyObject]; for
    [KeyFolder], [ReadObj().GetListOfKeys()] is [keys]. *)
#[warnings="-register-all"] Inductive TKey :=
| KeyObject (name : string)
| KeyFolder (name : string) (keys : list TKey).

(** What the generators hand out: a path, or the generator object that a
    call of [get_keys_in_folder] returns.  Such an object has run nothing
    yet; it is recorded with the arguments of the call. *)
Inductive yielded :=
| YPath (path : string)
| YGenerator (tfolder : list TKey) (path : string).

Module Rootutils.

(** The global name [os] of module [rootutils]: the function that
    [os.path.join] denotes there, or [None] when the name is unbound. *)
Definition os_binding := option (string -> string -> string).

Definition os_path_join (os : os_binding) (a b : string) : result string :=
  match os with
  | Some join => Ok (join a b)
  | None => Raise (NameError "os")
  end.

(** [posixpath.join] of two components. *)
Definition ends_with_slash (a : string) : bool :=
  match String.length a with
  | O => false
  | S n => if String.get n a is Some "/"%char then true else false
  end.

Definition posixpath_join (a b : string) : string :=
  if String.prefix "/" b then b
  else if (String.length a =? 0)%nat || ends_with_slash a then a ++ b
  else a ++ "/" ++ b.

(** The inner generator, run to exhaustion by whoever iterates it. *)
Definition get_keys_in_folder (os : os_binding) (tfolder : list TKey) (path : string)
  : result (list yielded) :=
  mapR (fun k =>
          match k with
          | KeyFolder kname keys =>
              rbind (os_path_join os path kname) (fun newpath =>
              Ok (YGenerator keys newpath))                    (* yield get_keys_in_folder(...) *)
          | KeyObject kname =>
              rbind (os_path_join os path kname) (fun p => Ok (YPath p))
          end) tfolder.

Definition get_list_of_keys_deep (os : os_binding) (tfile : list TKey) : result (list yielded) :=
  rbind
    (mapR (fun k =>
             match k with
             | KeyFolder kname keys => get_keys_in_folder os keys kname   (* yield from *)
             | KeyObject kname => Ok [YPath kname]
             end) tfile)
    (fun yss => Ok (concat yss)).

(** The paths of all leaves below a key, by the words of the docstring:
    every enclosing folder name joined with the entry's own name. *)
Fixpoint leaf_paths_below (join : string -> string -> string) (path : string) (k : TKey)
  : list string :=
  match k with
  | KeyObject kname => [join path kname]
  | KeyFolder kname keys => flat_map (leaf_paths_below join (join path kname)) keys
  end.

Definition leaf_paths (join : string -> string -> string) (tfile : list TKey) : list string :=
  flat_map (fun k =>
              match k with
              | KeyObject kname => [kname]
              | KeyFolder kname keys => flat_map (leaf_paths_below join kname) keys
              end) tfile.

End Rootutils.
Import Rootutils.

(** ** Key sets *)

(** An element of [set(get_list_of_keys_deep(tf))]: a string, or a
    generator object, which hashes and compares by identity.  Every
    generator object is created once, so the file and the position of
    its yield identify it. *)
Inductive pykey :=
| KStr (s : string)
| KGen (file : nat) (position : nat).

#[global] Instance pykey_eq_dec : EqDecision pykey.
Proof. solve_decision. Defined.

#[global] Instance pykey_countable : Countable pykey.
Proof.
  refine (inj_countable'
            (fun k => match k with KStr s => inl s | KGen f p => inr (f, p) end)
            (fun x => match x with inl s => KStr s | inr (f, p) => KGen f p end) _).
  by intros [].
Defined.

#[global] Instance KStr_inj : Inj (=) (=) KStr.
Proof. by intros ?? [=]. Defined.

Definition key_of_yielded (file : nat) (position : nat) (y : yielded) : pykey :=
  match y with
  | YPath p => KStr p
  | YGenerator _ _ => KGen file position
  end.

(** [set(...)] of what the enumeration of file number [file] yields. *)
Definition set_of_yielded (file : nat) (ys : list yielded) : gset pykey :=
  list_to_set (imap (key_of_yielded file) ys).

(** Using a key where a string is needed ([search], ['\t'+plot],
    [tf.Get]). *)
Definition as_str (k : pykey) : result string :=
  match k with
  | KStr s => Ok s
  | KGen _ _ => Raise TypeError
  end.

Definition string_le (a b : string) : Prop := String.leb a b = true.
#[global] Instance string_le_dec a b : Decision (string_le a b).
Proof. unfold string_le. apply _. Defined.

(** [sorted(s)]: lists of at most one element are never compared;
    otherwise comparing a generator object raises. *)
Definition sorted (s : gset pykey) : result (list pykey) :=
  let l := elements s in
  if (length l <=? 1)%nat then Ok l
  else rbind (mapR as_str l) (fun strs => Ok (KStr <$> merge_sort string_le strs)).

Definition len (s : gset pykey) : Z := Z.of_nat (size s).

(** ** compare_rootfiles: exit codes and reports *)

Inductive ExitStatus :=
| IDENTICAL
| CLARG_ERROR
| INTERNAL_ERROR
| EITHER_MISS
| FIRST_MISS
| SECOND_MISS
| DIFFERENCE_COMMON.

Definition value (s : ExitStatus) : Z :=
  match s with
  | IDENTICAL => 0
  | CLARG_ERROR => 2
  | INTERNAL_ERROR => 3
  | EITHER_MISS => 10
  | FIRST_MISS => 11
  | SECOND_MISS => 12
  | DIFFERENCE_COMMON => 13
  end.

Fixpoint for_each {A} (body : A -> M unit) (l : list A) : M unit :=
  match l with
  | [] => ret tt
  | a :: l' => body a >> for_each body l'
  end.

(** [for plot in sorted(s): print('\t'+plot)] followed by [print()]. *)
Definition print_plots (s : gset pykey) : M unit :=
  let* plots := lift (sorted s) in
  for_each (fun plot => let* p := lift (as_str plot) in print (PrintPlot p)) plots >>
  print PrintBlank.

(** The widths and format strings of [get_fmt] do not influence control
    flow; a report line is recorded with the numbers it is formatted
    from.  The percentage is computed before the line is printed. *)
Definition print_missing (missing1 missing2 common : gset pykey) (verbosity total : Z) : M unit :=
  let print_every_plot := 2 <=? verbosity in
  let print_every_plot_common := 4 <=? verbosity in
  (if 0 <? len missing1 then
     let* pct := lift (int_truediv (100 * len missing1) total) in
     print (PrintMissingFrom1 (len missing1) total pct) >>
     (if print_every_plot then print_plots missing1 else ret tt)
   else ret tt) >>
  (if 0 <? len missing2 then
     let* pct := lift (int_truediv (100 * len missing2) total) in
     print (PrintMissingFrom2 (len missing2) total pct) >>
     (if print_every_plot then print_plots missing2 else ret tt)
   else ret tt) >>
  (if 0 <? len common then
     let* pct := lift (int_truediv (100 * len common) total) in
     print (PrintCommon (len common) total pct) >>
     (if print_every_plot_common then print_plots common else ret tt)
   else ret tt).

(** [content_status] is the dict with the two counters ['OK'] and ['BAD']. *)
Record content_status := { OK : Z; BAD : Z }.

Definition print_content_status (cs : content_status) : M unit :=
  let ok := OK cs in
  let bad := BAD cs in
  let tot := ok + bad in
  if tot =? 0 then print PrintWarnNothingInCommon
  else
    let* pct_ok := lift (int_truediv (100 * ok) tot) in
    print (PrintSameContent ok tot pct_ok) >>
    if bad =? 0 then ret tt
    else
      let* pct_bad := lift (int_truediv (100 * bad) tot) in
      print (PrintDifferent bad tot pct_bad).

(** The keyword arguments that reach [diff_set]. *)
Record kwargs := { kw_verbosity : option Z; kw_common : option (gset pykey) }.

(** [kwargs.setdefault('common', missing1 & missing2)] *)
Definition diff_set_common (keys1 keys2 : gset pykey) (kw : kwargs) : gset pykey :=
  let missing1 := keys2 ∖ keys1 in
  let missing2 := keys1 ∖ keys2 in
  default (missing1 ∩ missing2) (kw_common kw).

(** The last branch evaluates [ExitStatus.IDENTICAL.value] without
    returning it: the function returns [None] there. *)
Definition diff_set (keys1 keys2 : gset pykey) (kw : kwargs) : M (option Z) :=
  let missing1 := keys2 ∖ keys1 in
  let missing2 := keys1 ∖ keys2 in
  let common := diff_set_common keys1 keys2 kw in
  print_missing missing1 missing2 common (default 0 (kw_verbosity kw)) (len (keys1 ∪ keys2)) >>
  if 0 <? len missing2 then ret (Some (value SECOND_MISS))
  else if 0 <? len missing2 then ret (Some (value FIRST_MISS))
  else ret None.

(** The external [diff] process: from the lines of the two temporary
    files to its return code and standard output. *)
Definition diff_process := list string -> list string -> Z * string.

Definition diff_full (run_diff : diff_process) (keys1 keys2 : gset pykey) : M Z :=
  let* lines1 := lift (rbind (sorted keys1) (mapR as_str)) in
  let* lines2 := lift (rbind (sorted keys2) (mapR as_str)) in
  let diff_proc := run_diff lines1 lines2 in
  if fst diff_proc =? 2 then
    print PrintErrorInDiff >> raise (SystemExit (value INTERNAL_ERROR))
  else
    print (PrintDiffStdout (snd diff_proc)) >> ret (fst diff_proc).

(** ** compare_rootfiles.main *)

(** A compiled regular expression: its source and what [search] finds. *)
Record Pattern := { pattern : string; search : string -> bool }.

Record Args := {
  args_diff : bool;
  args_set : bool;
  args_plot : option Pattern;
  args_plot_exclude : option Pattern;
  args_verbosity : Z
}.

(** An opened file: what [fstat] says of it, its top-level keys, and what
    [Get] retrieves for a path ([None] is the null pointer). *)
Record TFile := {
  st_ino : Z;
  st_dev : Z;
  GetListOfKeys : list TKey;
  Get : string -> option TObject
}.

(** [{ k for k in s if p(k) }] where [p] needs a string. *)
Definition filter_keys (p : string -> bool) (s : gset pykey) : result (gset pykey) :=
  rbind (mapR as_str (elements s)) (fun strs =>
  Ok (list_to_set (KStr <$> List.filter p strs))).

(** [set(get_list_of_keys_deep(tf))] for file number [file]. *)
Definition keys_of_file (os : os_binding) (file : nat) (tf : TFile) : result (gset pykey) :=
  rbind (get_list_of_keys_deep os (GetListOfKeys tf)) (fun ys => Ok (set_of_yielded file ys)).

(** "Select keys": [inl] is the selection, [inr] the value of an early
    [return]. *)
Definition select_keys (args : Args) (keys1 keys2 : gset pykey) : M (gset pykey + Z) :=
  let matching_keys := keys1 ∪ keys2 in
  print (PrintTotalKeys (len matching_keys)) >>
  let* sel :=
    match args_plot args with
    | Some plot =>
        let* matching_keys := lift (filter_keys (search plot) (keys1 ∪ keys2)) in
        if len matching_keys =? 0 then
          print (PrintNoKeysMatching (pattern plot)) >> ret (inr (value CLARG_ERROR))
        else
          print (PrintMatching (pattern plot) (len matching_keys)) >> ret (inl matching_keys)
    | None => ret (inl matching_keys)
    end in
  match sel with
  | inr code => ret (inr code)
  | inl matching_keys =>
      let* sel :=
        match args_plot_exclude args with
        | Some plot_exclude =>
            let* matching_keys :=
              lift (filter_keys (fun k => negb (search plot_exclude k)) matching_keys) in
            if len matching_keys =? 0 then
              print (PrintAllExcluded (pattern plot_exclude)) >> ret (inr (value CLARG_ERROR))
            else
              print (PrintNotMatching (pattern plot_exclude) (len matching_keys)) >>
              ret (inl matching_keys)
        | None => ret (inl matching_keys)
        end in
      match sel with
      | inr code => ret (inr code)
      | inl matching_keys => print PrintBlank >> ret (inl matching_keys)
      end
  end.

Definition dquote : string := String (ascii_of_nat 34) EmptyString.

(** [assert h1 and h2, ...] on the two retrieved objects. *)
Definition get_both (tf1 tf2 : TFile) (plot : string) : result (TObject * TObject) :=
  match Get tf1 plot, Get tf2 plot with
  | Some h1, Some h2 => Ok (h1, h2)
  | _, _ => Raise (AssertionError ("Unable to retrieve both plots " ++ dquote ++ plot ++ dquote ++ " from the files"))
  end.

(** The loop [for plot in sorted(common_keys)] over the plots still to
    compare.  [if(ok_content)] takes [None] and [False] alike to the
    [else] branch. *)
Fixpoint compare_common (tf1 tf2 : TFile) (verbosity : Z) (plots : list pykey)
         (cs : content_status) : M content_status :=
  match plots with
  | [] => ret cs
  | plot :: plots' =>
      let* p := lift (as_str plot) in
      let* (h1, h2) := lift (get_both tf1 tf2 p) in
      let* ok_content := compare_plot h1 h2 verbosity in
      compare_common tf1 tf2 verbosity plots'
        (if ok_content is Some true
         then {| OK := OK cs + 1; BAD := BAD cs |}
         else {| OK := OK cs; BAD := BAD cs + 1 |})
  end.

(** The exit code chosen at the end of [main]. *)
Definition final_status (cs : content_status) (missing1 missing2 : gset pykey) : Z :=
  if 0 <? BAD cs then value DIFFERENCE_COMMON
  else if 0 <? len missing2 then value SECOND_MISS
  else if 0 <? len missing1 then value FIRST_MISS
  else value IDENTICAL.

(** [missing_keys[i] = matching_keys - keys_i] and
    [common_keys = matching_keys & keys1 & keys2]. *)
Definition missing_keys (matching_keys keys : gset pykey) : gset pykey :=
  matching_keys ∖ keys.

Definition common_keys (matching_keys keys1 keys2 : gset pykey) : gset pykey :=
  matching_keys ∩ keys1 ∩ keys2.

(** "Actual in-depth comparison of plots". *)
Definition compare_selected (args : Args) (tf1 tf2 : TFile)
           (keys1 keys2 matching_keys : gset pykey) : M (option Z) :=
  let missing1 := missing_keys matching_keys keys1 in
  let missing2 := missing_keys matching_keys keys2 in
  let common := common_keys matching_keys keys1 keys2 in
  let* plots := lift (sorted common) in
  let* cs := compare_common tf1 tf2 (args_verbosity args) plots {| OK := 0; BAD := 0 |} in
  print_missing missing1 missing2 common (args_verbosity args) (len matching_keys) >>
  print PrintBlank >>
  print_content_status cs >>
  ret (Some (final_status cs missing1 missing2)).

Definition main (os : os_binding) (run_diff : diff_process) (args : Args) (tf1 tf2 : TFile)
  : M (option Z) :=
  if (st_ino tf1 =? st_ino tf2) && (st_dev tf1 =? st_dev tf2) then
    print PrintSameFiles >> ret (Some (value CLARG_ERROR))
  else
    let* keys1 := lift (keys_of_file os 1 tf1) in
    let* keys2 := lift (keys_of_file os 2 tf2) in
    if args_diff args then
      let* diff_retcode := diff_full run_diff keys1 keys2 in
      if diff_retcode =? 1 then ret (Some (value EITHER_MISS))
      else ret (Some (value IDENTICAL))
    else if args_set args then
      diff_set keys1 keys2 {| kw_verbosity := Some (args_verbosity args); kw_common := None |}
    else
      let* sel := select_keys args keys1 keys2 in
      match sel with
      | inr code => ret (Some code)
      | inl matching_keys => compare_selected args tf1 tf2 keys1 keys2 matching_keys
      end.

(** The status the process ends with: [exit(main())]. *)
Definition run (os : os_binding) (run_diff : diff_process) (args : Args) (tf1 tf2 : TFile) : Z :=
  exit_status (outcome (main os run_diff args tf1 tf2)).

(** ** Vocabulary of the statements *)

(** Files whose folders hold objects only: nesting depth at most one. *)
Definition is_object (k : TKey) : bool :=
  match k with
  | KeyObject _ => true
  | KeyFolder _ _ => false
  end.




(** A computation that does not end in a division by zero. *)
Definition no_zero_division {A} (m : M A) : Prop := outcome m <> Raise ZeroDivisionError.

(** A computation that returns, i.e. raises nothing. *)
Definition returns {A} (m : M A) : Prop := exists a, outcome m = Ok a.

(** The test on the two [fstat] results at the start of [main]. *)
Definition same_file (tf1 tf2 : TFile) : bool :=
  (st_ino tf1 =? st_ino tf2) && (st_dev tf1 =? st_dev tf2).


(** What the [--plot] stage leaves selected and prints when it does not
    end the run. *)
Inductive selected_by_plot (args : Args) (keys1 keys2 : gset pykey)
  : gset pykey -> list event -> Prop :=
| plot_absent :
    args_plot args = None ->
    selected_by_plot args keys1 keys2 (keys1 ∪ keys2) []
| plot_matches plot matching_keys :
    args_plot args = Some plot ->
    filter_keys (search plot) (keys1 ∪ keys2) = Ok matching_keys ->
    matching_keys <> ∅ ->
    selected_by_plot args keys1 keys2 matching_keys
                     [PrintMatching (pattern plot) (len matching_keys)].

(** The three error conditions on the arguments, each with the messages
    printed up to the point where it is detected.  The two regular
    expressions are looked at in full content-comparison mode only. *)
Inductive clarg_error (os : os_binding) (args : Args) (tf1 tf2 : TFile) : list event -> Prop :=
| the_same_file :
    same_file tf1 tf2 = true ->
    clarg_error os args tf1 tf2 [PrintSameFiles]
| no_key_matches keys1 keys2 plot :
    same_file tf1 tf2 = false ->
    args_diff args = false -> args_set args = false ->
    keys_of_file os 1 tf1 = Ok keys1 -> keys_of_file os 2 tf2 = Ok keys2 ->
    args_plot args = Some plot ->
    filter_keys (search plot) (keys1 ∪ keys2) = Ok ∅ ->
    clarg_error os args tf1 tf2
                [PrintTotalKeys (len (keys1 ∪ keys2)); PrintNoKeysMatching (pattern plot)]
| all_keys_excluded keys1 keys2 plot_exclude matching_keys out :
    same_file tf1 tf2 = false ->
    args_diff args = false -> args_set args = false ->
    keys_of_file os 1 tf1 = Ok keys1 -> keys_of_file os 2 tf2 = Ok keys2 ->
    selected_by_plot args keys1 keys2 matching_keys out ->
    args_plot_exclude args = Some plot_exclude ->
    filter_keys (fun k => negb (search plot_exclude k)) matching_keys = Ok ∅ ->
    clarg_error os args tf1 tf2
                (PrintTotalKeys (len (keys1 ∪ keys2)) :: out ++
                 [PrintAllExcluded (pattern plot_exclude)]).

(** ** Concrete files and histograms used below *)

Module Sample.

Definition zero : float := S754_zero false.
Definition one : float := float_of_int 1.

(** A one-dimensional histogram with one bin plus underflow and overflow. *)
Definition th1 (hname : string) (content : Z -> float) (integral : float) : TObject :=
  {| GetName := hname; ClassName := "TH1F"; InheritsFromTH1 := true;
     GetDimension := 1; GetNcells := 3;
     GetBinContent := content; Integral := integral |}.

(** An empty histogram, and one with a single entry in bin 1. *)
Definition h_empty : TObject := th1 "h" (fun _ => zero) zero.
Definition h_filled : TObject := th1 "h" (fun b => if b =? 1 then one else zero) one.

(** An object that is not a histogram. *)
Definition graph : TObject :=
  {| GetName := "g"; ClassName := "TGraph"; InheritsFromTH1 := false;
     GetDimension := 0; GetNcells := 0;
     GetBinContent := fun _ => zero; Integral := zero |}.

(** A file with one top-level object. *)
Definition single (ino : Z) (kname : string) (obj : TObject) : TFile :=
  {| st_ino := ino; st_dev := 1;
     GetListOfKeys := [KeyObject kname];
     Get := fun p => if decide (p = kname) then Some obj else None |}.

Definition no_keys (ino : Z) : TFile :=
  {| st_ino := ino; st_dev := 1; GetListOfKeys := []; Get := fun _ => None |}.

(** Folder [a] holding folder [b] holding the object [h]. *)
Definition nested : list TKey := [KeyFolder "a" [KeyFolder "b" [KeyObject "h"]]].

(** A [diff] that works: 0 on equal inputs, 1 otherwise. *)
Definition diff_ok : diff_process :=
  fun lines1 lines2 => (if decide (lines1 = lines2) then 0 else 1, "").

Definition args_full (v : Z) : Args :=
  {| args_diff := false; args_set := false;
     args_plot := None; args_plot_exclude := None; args_verbosity := v |}.

Definition args_set_only (v : Z) : Args :=
  {| args_diff := false; args_set := true;
     args_plot := None; args_plot_exclude := None; args_verbosity := v |}.

(** A regular expression that matches no key of the sample files. *)
Definition no_match : Pattern := {| pattern := "zzz"; search := fun _ => false |}.

Definition args_set_plot : Args :=
  {| args_diff := false; args_set := true;
     args_plot := Some no_match; args_plot_exclude := None; args_verbosity := 1 |}.

Definition args_full_plot : Args :=
  {| args_diff := false; args_set := false;
     args_plot := Some no_match; args_plot_exclude := None; args_verbosity := 1 |}.

End Sample.

(** ** compare_rootfiles.get_fmt *)

(** [str(n)] of an int, and [len(str(n))]. *)
Definition str_int (n : Z) : string := pretty n.
Definition len_str (n : Z) : nat := String.length (str_int n).

(** The format string [get_fmt] builds is determined by the two field
    widths it computes: ['{:<w1>d}/{:<w2>d} ({:5.1f}) %']. *)
Definition get_fmt (a b tot : Z) : nat * nat :=
  (Nat.max (len_str a) (len_str b), len_str tot).

(** ['{:<w>d}'.format(n)]: right-aligned in a field of at least [w]
    characters, padded with spaces, never truncated. *)
Fixpoint spaces (n : nat) : string :=
  match n with
  | O => EmptyString
  | S n' => String " " (spaces n')
  end.

Definition format_d (w : nat) (n : Z) : string :=
  (spaces (w - len_str n) ++ str_int n)%string.

(** ** Vocabulary of the further properties *)

Definition is_header (e : event) : bool :=
  match e with
  | PrintHeader _ => true
  | _ => false
  end.

Definition is_bin_line (e : event) : bool :=
  match e with
  | PrintBin _ _ _ _ => true
  | _ => false
  end.

(** The line printed for cell [b] at verbosity 3 and above. *)
Definition bin_line (h1 h2 : TObject) (b : Z) : event :=
  PrintBin b (GetBinContent h1 b) (GetBinContent h2 b)
           (float_sub (GetBinContent h2 b) (GetBinContent h1 b)).

(** The cells whose contents compare different, in ascending order. *)
Definition differing_bins (h1 h2 : TObject) : list Z :=
  List.filter (fun b => float_ne (GetBinContent h1 b) (GetBinContent h2 b))
              (range (GetNcells h1)).

(** Two histograms that pass the three structural tests of
    [compare_plot]. *)
Definition compatible (h1 h2 : TObject) : Prop :=
  InheritsFromTH1 h1 = true /\ InheritsFromTH1 h2 = true /\
  GetDimension h1 = GetDimension h2 /\ GetNcells h1 = GetNcells h2.

Definition is_nan (x : float) : bool :=
  match x with
  | S754_nan => true
  | _ => false
  end.

(** The number of header lines in an output. *)
Definition headers (out : list event) : nat := length (List.filter is_header out).



(** A top-level folder that holds a folder. *)
Definition holds_folder (k : TKey) : bool :=
  match k with
  | KeyFolder _ keys => existsb (fun k' => negb (is_object k')) keys
  | KeyObject _ => false
  end.

(** Whether a key passes the two optional filters of [main]. *)
Definition selected (args : Args) (p : string) : bool :=
  (if args_plot args is Some plot then search plot p else true) &&
  (if args_plot_exclude args is Some plot_exclude then negb (search plot_exclude p) else true).

#[global] Instance string_le_total : Total string_le.
Proof. intros a b. apply String.leb_total. Defined.

Module Sample2.


(** A file whose folder [a] holds the folder [b]. *)
Definition with_nested (ino : Z) : TFile :=
  {| st_ino := ino; st_dev := 1;
     GetListOfKeys := Sample.nested;
     Get := fun _ => None |}.

Definition args_diff_only : Args :=
  {| args_diff := true; args_set := true;
     args_plot := None; args_plot_exclude := None; args_verbosity := 1 |}.

Definition only_h : Pattern :=
  {| pattern := "^h"; search := fun p => String.prefix "h" p |}.

Definition args_plot_h : Args :=
  {| args_diff := false; args_set := false;
     args_plot := Some only_h; args_plot_exclude := None; args_verbosity := 1 |}.

End Sample2.

(** ** Properties *)

(** *** The output/exception monad *)

Lemma outcome_bind {A B} (m : M A) (f : A -> M B) :
  outcome (bind m f) =
  match outcome m with
  | Ok a => outcome (f a)
  | Raise e => Raise e
  end.
Proof. destruct m as [out [a|e]]; reflexivity. Qed.

Lemma outcome_print_header h1 (ph : bool) :
  exists ph', outcome (print_header h1 ph) = Ok ph'.
Proof. destruct ph; eexists; reflexivity. Qed.

Lemma in_range (n b : Z) : In b (range n) <-> 0 <= b < n.
Proof.
  unfold range. rewrite in_map_iff. split.
  - intros (i & <- & Hi). apply in_seq in Hi. lia.
  - intros Hb. exists (Z.to_nat b). split; [lia|]. apply in_seq. lia.
Qed.

(** *** The bin scan *)

(** Whatever the verbosity, the scan ends with
    [ok_content = (all visited cells compare equal)]. *)
Lemma scan_bins_outcome h1 h2 v (bins : list Z) (ph ok : bool) :
  exists ph',
    outcome (scan_bins h1 h2 v bins ph ok) =
    Ok (ph', ok && forallb (fun b => float_eq (GetBinContent h1 b) (GetBinContent h2 b)) bins).
Proof.
  revert ph ok. induction bins as [|b bins IH]; intros ph ok; simpl.
  - exists ph. by rewrite andb_true_r.
  - unfold float_ne, float_eq.
    destruct (SFeqb (GetBinContent h1 b) (GetBinContent h2 b)); simpl.
    + apply IH.
    + rewrite andb_false_r. destruct (print_every_bin v).
      * rewrite outcome_bind.
        destruct (outcome_print_header h1 ph) as [ph' ->].
        rewrite outcome_bind. simpl.
        destruct (IH ph' false) as [ph'' ->]. by exists ph''.
      * by exists ph.
Qed.

Lemma report_plot_equal_content h1 h2 v :
  outcome (report_plot h1 h2 v true) = Ok tt.
Proof.
  unfold report_plot.
  destruct ((print_wrong_plot v || print_good_plot v) && negb (print_every_bin v)); [|done].
  simpl. by destruct (print_good_plot v).
Qed.

(** The summary line with the integrals is printed at verbosity 2 only. *)
Lemma report_plot_verbosity v :
  (print_wrong_plot v || print_good_plot v) && negb (print_every_bin v) = true <-> v = 2.
Proof.
  unfold print_wrong_plot, print_good_plot, print_every_bin.
  destruct (Z.leb_spec 2 v), (Z.leb_spec 4 v), (Z.leb_spec 3 v); simpl;
    split; intros; try discriminate; lia.
Qed.

(** A structurally compatible pair: the result is [Some ok_content] unless
    the percentage of the integrals raises, which needs different
    content, verbosity 2 and a zero integral of the first histogram. *)
Lemma compare_plot_compatible h1 h2 v :
  InheritsFromTH1 h1 = true -> InheritsFromTH1 h2 = true ->
  GetDimension h1 = GetDimension h2 -> GetNcells h1 = GetNcells h2 ->
  let same := forallb (fun b => float_eq (GetBinContent h1 b) (GetBinContent h2 b))
                      (range (GetNcells h1)) in
  outcome (compare_plot h1 h2 v) = Ok (Some same) \/
  (same = false /\ v = 2 /\ float_eq (Integral h1) (S754_zero false) = true /\
   outcome (compare_plot h1 h2 v) = Raise ZeroDivisionError).
Proof.
  intros H1 H2 Hd Hn same. unfold compare_plot.
  rewrite H1, H2, Hd, <- Hn, !Z.eqb_refl. simpl.
  rewrite outcome_bind.
  destruct (scan_bins_outcome h1 h2 v (range (GetNcells h1)) false true) as [ph Hscan].
  rewrite Hscan. simpl. fold same.
  rewrite outcome_bind.
  destruct same eqn:Hsame.
  - left. rewrite report_plot_equal_content. rewrite outcome_bind. simpl.
    destruct (print_ok v); [|done].
    rewrite outcome_bind. by destruct (outcome_print_header h1 ph) as [ph' ->].
  - unfold report_plot.
    destruct ((print_wrong_plot v || print_good_plot v) && negb (print_every_bin v)) eqn:Hv;
      simpl.
    + apply report_plot_verbosity in Hv.
      destruct (float_eq (Integral h1) (Integral h2)); [by left|].
      rewrite outcome_bind. simpl. unfold float_truediv.
      destruct (float_eq (Integral h1) (S754_zero false)); [by right|by left].
    + by left.
Qed.

(** C1.  For two objects that inherit from TH1 and agree in dimension and
    in cell count, [compare_plot] returns [True] exactly when, for every
    cell [b] with [0 <= b < ncells], [GetBinContent(b)] of the two compare
    equal under the float comparison of the language (no tolerance is
    involved), and this holds at every verbosity level. *)
Theorem compare_plot_identical_iff (h1 h2 : TObject) (verbosity : Z) :
  InheritsFromTH1 h1 = true -> InheritsFromTH1 h2 = true ->
  GetDimension h1 = GetDimension h2 -> GetNcells h1 = GetNcells h2 ->
  outcome (compare_plot h1 h2 verbosity) = Ok (Some true) <->
  (forall b, 0 <= b < GetNcells h1 ->
             float_eq (GetBinContent h1 b) (GetBinContent h2 b) = true).
Proof.
  intros H1 H2 Hd Hn.
  pose proof (compare_plot_compatible h1 h2 verbosity H1 H2 Hd Hn) as Hc.
  simpl in Hc.
  set (same := forallb _ _) in Hc.
  assert (Hsame : same = true <->
                  forall b, 0 <= b < GetNcells h1 ->
                            float_eq (GetBinContent h1 b) (GetBinContent h2 b) = true).
  { unfold same. rewrite forallb_forall.
    split; intros H b Hb; apply H; by apply in_range. }
  rewrite <- Hsame. destruct Hc as [-> | (Hf & _ & _ & ->)].
  - split; [by intros [= ->] | by intros ->].
  - rewrite Hf. split; discriminate.
Qed.

Lemma compare_plot_identical_iff_witness :
  outcome (compare_plot Sample.h_filled Sample.h_filled 2) = Ok (Some true) <->
  (forall b, 0 <= b < GetNcells Sample.h_filled ->
             float_eq (GetBinContent Sample.h_filled b) (GetBinContent Sample.h_filled b) = true).
Proof. apply compare_plot_identical_iff; reflexivity. Defined.

(** Two runs of [compare_plot] that both return agree, whatever the two
    verbosity levels: the early exit and the full scan classify alike. *)
Lemma compare_plot_returns_alike h1 h2 v v' r r' :
  outcome (compare_plot h1 h2 v) = Ok r ->
  outcome (compare_plot h1 h2 v') = Ok r' ->
  r = r'.
Proof.
  destruct (InheritsFromTH1 h1) eqn:H1; [destruct (InheritsFromTH1 h2) eqn:H2|].
  - destruct (Z.eqb_spec (GetDimension h1) (GetDimension h2)) as [Hd|Hd].
    + destruct (Z.eqb_spec (GetNcells h1) (GetNcells h2)) as [Hn|Hn].
      * intros Hv Hv'.
        destruct (compare_plot_compatible h1 h2 v H1 H2 Hd Hn) as [E|(_ & _ & _ & E)];
          destruct (compare_plot_compatible h1 h2 v' H1 H2 Hd Hn) as [E'|(_ & _ & _ & E')];
          congruence.
      * apply Z.eqb_neq in Hn. unfold compare_plot.
        rewrite H1, H2, Hd, Z.eqb_refl, Hn. simpl.
        rewrite !outcome_bind. simpl. congruence.
    + apply Z.eqb_neq in Hd. unfold compare_plot. rewrite H1, H2, Hd. simpl.
      rewrite !outcome_bind. simpl. congruence.
  - unfold compare_plot. rewrite H1, H2. simpl. rewrite !outcome_bind.
    destruct (1 <=? v), (1 <=? v'); simpl; rewrite ?outcome_bind; simpl; congruence.
  - unfold compare_plot. rewrite H1. simpl. rewrite !outcome_bind.
    destruct (1 <=? v), (1 <=? v'); simpl; rewrite ?outcome_bind; simpl; congruence.
Qed.

(** C8.  The classification does depend on the verbosity level for one
    kind of pair: an empty histogram against a filled one is classified
    different at verbosity 0 and 3, and makes [compare_plot] raise at
    verbosity 2, where the percentage of the integrals divides by zero;
    the process then ends with status 1 instead of 13. *)
Theorem compare_plot_verbosity_2_zero_integral :
  outcome (compare_plot Sample.h_empty Sample.h_filled 0) = Ok (Some false) /\
  outcome (compare_plot Sample.h_empty Sample.h_filled 3) = Ok (Some false) /\
  outcome (compare_plot Sample.h_empty Sample.h_filled 2) = Raise ZeroDivisionError /\
  run None Sample.diff_ok (Sample.args_full 0)
      (Sample.single 1 "h" Sample.h_empty) (Sample.single 2 "h" Sample.h_filled)
    = value DIFFERENCE_COMMON /\
  run None Sample.diff_ok (Sample.args_full 2)
      (Sample.single 1 "h" Sample.h_empty) (Sample.single 2 "h" Sample.h_filled)
    = 1.
Proof. repeat split; vm_compute; reflexivity. Qed.

(** *** Key enumeration *)




(** C2.  A leaf two folders deep is not enumerated: the docstring's paths
    of the file [a/b/h] are ["a/b/h"], whereas the enumeration yields the
    generator object of the inner call for folder [a/b] when [os] denotes
    the path module, and raises [NameError] when [os] is unbound in
    [rootutils], as it is in the module as written. *)
Theorem get_list_of_keys_deep_nested_folder :
  leaf_paths posixpath_join Sample.nested = ["a/b/h"] /\
  get_list_of_keys_deep (Some posixpath_join) Sample.nested =
    Ok [YGenerator [KeyObject "h"] "a/b"] /\
  get_list_of_keys_deep None Sample.nested = Raise (NameError "os").
Proof. repeat split; reflexivity. Qed.

(** *** The set comparator *)

Lemma len_pos_iff (s : gset pykey) : (0 <? len s) = true <-> s <> ∅.
Proof.
  unfold len. rewrite Z.ltb_lt. split.
  - intros H ->. rewrite size_empty in H. lia.
  - intros H. assert (size s <> 0%nat); [|lia].
    rewrite size_non_empty_iff. by intros ?%leibniz_equiv.
Qed.

(** When the caller passes no [common], [diff_set] takes the intersection
    of the two missing sets, which is empty. *)
Lemma diff_set_common_default (keys1 keys2 : gset pykey) (v : option Z) :
  diff_set_common keys1 keys2 {| kw_verbosity := v; kw_common := None |} = ∅.
Proof.
  unfold diff_set_common. simpl. apply set_eq. intros k.
  rewrite elem_of_intersection, !elem_of_difference, elem_of_empty. tauto.
Qed.

(** C3.  For two files with the same single key, [diff_set] as [main]
    calls it takes the empty set for the common subset, whereas the
    intersection of the two key sets holds that key; nothing is reported
    about common keys. *)
Theorem diff_set_common_not_intersection :
  let keys : gset pykey := {[ KStr "h" ]} in
  let kw := {| kw_verbosity := Some 1; kw_common := None |} in
  keys ∩ keys = {[ KStr "h" ]} /\
  diff_set_common keys keys kw = ∅ /\
  output (diff_set keys keys kw) = [].
Proof.
  intros keys kw. split; [set_solver|]. split.
  - apply diff_set_common_default.
  - vm_compute. reflexivity.
Qed.

(** [diff_set] has two outcomes only: [SECOND_MISS], or no value. *)
Lemma diff_set_returns (keys1 keys2 : gset pykey) (kw : kwargs) (r : option Z) :
  outcome (diff_set keys1 keys2 kw) = Ok r ->
  r = (if 0 <? len (keys1 ∖ keys2) then Some (value SECOND_MISS) else None).
Proof.
  unfold diff_set. cbv zeta. rewrite outcome_bind.
  destruct (outcome (print_missing _ _ _ _ _)); [|done].
  destruct (0 <? len (keys1 ∖ keys2)); unfold outcome; simpl; congruence.
Qed.

(** C4.  In set-only mode, when only the first file misses a key (the
    first file is empty, the second holds [h]), [diff_set] returns no
    value and the process ends with status 0, not with [FIRST_MISS]. *)
Theorem diff_set_first_miss_exits_0 :
  let tf1 := Sample.no_keys 1 in
  let tf2 := Sample.single 2 "h" Sample.h_filled in
  keys_of_file None 1 tf1 = Ok ∅ /\
  keys_of_file None 2 tf2 = Ok {[ KStr "h" ]} /\
  outcome (main None Sample.diff_ok (Sample.args_set_only 1) tf1 tf2) = Ok None /\
  run None Sample.diff_ok (Sample.args_set_only 1) tf1 tf2 = 0 /\
  value FIRST_MISS = 11.
Proof. repeat split; vm_compute; reflexivity. Qed.

(** C7.  Two files that hold the same non-histogram object under the same
    key: the pair is detected, then counted in ['BAD'], reported as
    different, and the process ends with [DIFFERENCE_COMMON]. *)
Theorem main_counts_non_histograms_as_bad :
  let tf1 := Sample.single 1 "g" Sample.graph in
  let tf2 := Sample.single 2 "g" Sample.graph in
  let pct := float_of_int 100 in
  outcome (compare_plot Sample.graph Sample.graph 1) = Ok None /\
  main None Sample.diff_ok (Sample.args_full 1) tf1 tf2 =
    ([PrintTotalKeys 1; PrintBlank;
      PrintHeader "g"; PrintNotHistograms "TGraph" "TGraph";
      PrintCommon 1 1 pct; PrintBlank;
      PrintSameContent 0 1 Sample.zero; PrintDifferent 1 1 pct],
     Ok (Some (value DIFFERENCE_COMMON))) /\
  run None Sample.diff_ok (Sample.args_full 1) tf1 tf2 = 13.
Proof. repeat split; vm_compute; reflexivity. Qed.

(** *** Key selection *)

Lemma mapR_as_str (l : list pykey) (strs : list string) :
  mapR as_str l = Ok strs -> l = KStr <$> strs.
Proof.
  revert strs. induction l as [|k l IH]; intros strs; simpl.
  - by intros [= <-].
  - destruct k as [s|f p]; simpl; [|done].
    destruct (mapR as_str l) as [strs'|e]; simpl; [|done].
    intros [= <-]. simpl. f_equal. by apply IH.
Qed.

Lemma elem_of_filter_keys (p : string -> bool) (s m : gset pykey) (k : pykey) :
  filter_keys p s = Ok m ->
  k ∈ m <-> exists x, k = KStr x /\ p x = true /\ k ∈ s.
Proof.
  unfold filter_keys.
  destruct (mapR as_str (elements s)) as [strs|e] eqn:E; simpl; [|done].
  apply mapR_as_str in E. intros [= <-].
  rewrite elem_of_list_to_set, list_elem_of_fmap.
  assert (Hs : forall x, KStr x ∈ s <-> In x strs).
  { intros x. rewrite <- elem_of_elements, E, <- list_elem_of_In.
    rewrite (list_elem_of_fmap_inj _). done. }
  split.
  - intros (x & -> & Hx). apply list_elem_of_In, filter_In in Hx as [Hx Hp].
    exists x. by rewrite Hs.
  - intros (x & -> & Hp & Hx). exists x. split; [done|].
    apply list_elem_of_In, filter_In. by rewrite <- Hs.
Qed.

Lemma filter_keys_subseteq (p : string -> bool) (s m : gset pykey) :
  filter_keys p s = Ok m -> m ⊆ s.
Proof.
  intros H k Hk. apply (elem_of_filter_keys _ _ _ k H) in Hk.
  by destruct Hk as (x & _ & _ & Hx).
Qed.

(** The selection is taken from the keys of the two files. *)
Lemma select_keys_subseteq (args : Args) (keys1 keys2 matching : gset pykey) :
  outcome (select_keys args keys1 keys2) = Ok (inl matching) ->
  matching ⊆ keys1 ∪ keys2.
Proof.
  unfold select_keys. rewrite !outcome_bind. unfold outcome at 1. simpl.
  destruct (args_plot args) as [plot|].
  - rewrite outcome_bind. unfold lift, outcome at 1. simpl.
    destruct (filter_keys (search plot) (keys1 ∪ keys2)) as [m|e] eqn:Em; [|done].
    apply filter_keys_subseteq in Em.
    destruct (len m =? 0); rewrite outcome_bind; unfold outcome at 1; simpl; [done|].
    rewrite outcome_bind.
    destruct (args_plot_exclude args) as [excl|].
    + rewrite outcome_bind. unfold lift, outcome at 1. simpl.
      destruct (filter_keys _ m) as [m'|e] eqn:Em'; [|done].
      apply filter_keys_subseteq in Em'.
      destruct (len m' =? 0); rewrite outcome_bind; unfold outcome at 1; simpl; [done|].
      rewrite outcome_bind. unfold outcome. simpl. intros [= <-]. set_solver.
    + unfold outcome at 1. simpl. rewrite outcome_bind. unfold outcome. simpl.
      by intros [= <-].
  - unfold outcome at 1. simpl. rewrite outcome_bind.
    destruct (args_plot_exclude args) as [excl|].
    + rewrite outcome_bind. unfold lift, outcome at 1. simpl.
      destruct (filter_keys _ _) as [m'|e] eqn:Em'; [|done].
      apply filter_keys_subseteq in Em'.
      destruct (len m' =? 0); rewrite outcome_bind; unfold outcome at 1; simpl; [done|].
      rewrite outcome_bind. unfold outcome. simpl. by intros [= <-].
    + unfold outcome at 1. simpl. rewrite outcome_bind. unfold outcome. simpl.
      by intros [= <-].
Qed.

(** C9.  For every pair of key sets and every selection that [main]
    makes of them, the keys missing from file 1, the keys missing from
    file 2 and the common keys are pairwise disjoint, their union is
    [matching_keys], and their sizes add up to [len(matching_keys)], the
    denominator of the percentages. *)
Theorem selected_keys_partition (args : Args) (keys1 keys2 matching_keys : gset pykey) :
  outcome (select_keys args keys1 keys2) = Ok (inl matching_keys) ->
  let missing1 := missing_keys matching_keys keys1 in
  let missing2 := missing_keys matching_keys keys2 in
  let common := common_keys matching_keys keys1 keys2 in
  missing1 ## missing2 /\ missing1 ## common /\ missing2 ## common /\
  missing1 ∪ missing2 ∪ common = matching_keys /\
  len missing1 + len missing2 + len common = len matching_keys.
Proof.
  intros Hsel%select_keys_subseteq missing1 missing2 common.
  subst missing1 missing2 common. unfold missing_keys, common_keys.
  assert (D12 : matching_keys ∖ keys1 ## matching_keys ∖ keys2) by set_solver.
  assert (D1c : matching_keys ∖ keys1 ## matching_keys ∩ keys1 ∩ keys2) by set_solver.
  assert (D2c : matching_keys ∖ keys2 ## matching_keys ∩ keys1 ∩ keys2) by set_solver.
  assert (U : matching_keys ∖ keys1 ∪ matching_keys ∖ keys2 ∪ matching_keys ∩ keys1 ∩ keys2
              = matching_keys).
  { apply set_eq. intros k.
    rewrite !elem_of_union, !elem_of_intersection, !elem_of_difference.
    destruct (decide (k ∈ keys1)), (decide (k ∈ keys2)); tauto. }
  repeat split; try done.
  pose proof (size_union _ _ D12) as S12.
  pose proof (size_union (matching_keys ∖ keys1 ∪ matching_keys ∖ keys2)
                         (matching_keys ∩ keys1 ∩ keys2)) as S.
  rewrite U in S. unfold len. rewrite S by set_solver. lia.
Qed.

Lemma selected_keys_partition_witness :
  let keys : gset pykey := {[ KStr "h" ]} in
  let missing1 := missing_keys keys keys in
  let missing2 := missing_keys keys keys in
  let common := common_keys keys keys keys in
  missing1 ## missing2 /\ missing1 ## common /\ missing2 ## common /\
  missing1 ∪ missing2 ∪ common = keys /\
  len missing1 + len missing2 + len common = len keys.
Proof.
  apply (selected_keys_partition (Sample.args_full 1) {[ KStr "h" ]} {[ KStr "h" ]}).
  vm_compute. reflexivity.
Defined.

(** *** Reports *)

Ltac returns_ok := by (unfold no_zero_division, outcome; simpl).

Lemma no_zero_division_bind {A B} (m : M A) (f : A -> M B) :
  no_zero_division m ->
  (forall a, outcome m = Ok a -> no_zero_division (f a)) ->
  no_zero_division (bind m f).
Proof.
  unfold no_zero_division. rewrite outcome_bind.
  destruct (outcome m) as [a|e].
  - intros _ H. by apply H.
  - intros H _ [= ->]. by apply H.
Qed.

Lemma mapR_as_str_raises (l : list pykey) (e : exn) :
  mapR as_str l = Raise e -> e = TypeError.
Proof.
  induction l as [|k l IH]; simpl; [done|].
  destruct k as [s|f p]; simpl; [|by intros [= <-]].
  destruct (mapR as_str l); simpl; [done|].
  intros [= <-]. by apply IH.
Qed.

Lemma sorted_raises (s : gset pykey) (e : exn) : sorted s = Raise e -> e = TypeError.
Proof.
  unfold sorted. destruct (length (elements s) <=? 1)%nat; [done|].
  destruct (mapR as_str (elements s)) eqn:E; simpl; [done|].
  intros [= <-]. by apply mapR_as_str_raises in E.
Qed.

Lemma for_each_no_zero_division {A} (body : A -> M unit) (l : list A) :
  (forall a, no_zero_division (body a)) -> no_zero_division (for_each body l).
Proof.
  intros H. induction l as [|a l IH]; simpl; [returns_ok|].
  apply no_zero_division_bind; [apply H | by intros _ _].
Qed.

Lemma print_plots_no_zero_division (s : gset pykey) : no_zero_division (print_plots s).
Proof.
  unfold print_plots. apply no_zero_division_bind.
  - intros E. by apply sorted_raises in E.
  - intros plots _. apply no_zero_division_bind; [|intros; returns_ok].
    apply for_each_no_zero_division. intros [p|f n]; returns_ok.
Qed.

Lemma int_truediv_ok (a b : Z) : b <> 0 -> exists q, int_truediv a b = Ok q.
Proof.
  intros Hb. unfold int_truediv. apply Z.eqb_neq in Hb. rewrite Hb. by eexists.
Qed.

(** One block of [print_missing]: the division is guarded by the size of
    the subset, and the total is at least that size. *)
Lemma print_missing_block (s all : gset pykey) (line : Z -> Z -> float -> event)
      (every_plot : bool) :
  s ⊆ all ->
  no_zero_division
    (if 0 <? len s then
       let* pct := lift (int_truediv (100 * len s) (len all)) in
       print (line (len s) (len all) pct) >>
       (if every_plot then print_plots s else ret tt)
     else ret tt).
Proof.
  intros Hsub. destruct (0 <? len s) eqn:Hpos; [|returns_ok].
  apply Z.ltb_lt in Hpos. apply subseteq_size in Hsub. unfold len in *.
  destruct (int_truediv_ok (100 * Z.of_nat (size s)) (Z.of_nat (size all))) as [q Hq]; [lia|].
  apply no_zero_division_bind.
  - unfold no_zero_division, lift, outcome. simpl. by rewrite Hq.
  - intros pct _. apply no_zero_division_bind; [returns_ok|]. intros _ _.
    destruct every_plot; [apply print_plots_no_zero_division | returns_ok].
Qed.

Lemma print_content_status_ok (cs : content_status) :
  outcome (print_content_status cs) = Ok tt.
Proof.
  unfold print_content_status.
  destruct (Z.eqb_spec (OK cs + BAD cs) 0) as [|Hne]; [done|].
  destruct (int_truediv_ok (100 * OK cs) _ Hne) as [q Hq].
  destruct (int_truediv_ok (100 * BAD cs) _ Hne) as [q' Hq'].
  rewrite Hq, Hq'. unfold outcome, bind, lift, print, ret. simpl.
  by destruct (BAD cs =? 0).
Qed.

Lemma print_missing_no_zero_division
      (missing1 missing2 common all : gset pykey) (verbosity : Z) :
  missing1 ⊆ all -> missing2 ⊆ all -> common ⊆ all ->
  no_zero_division (print_missing missing1 missing2 common verbosity (len all)).
Proof.
  intros H1 H2 Hc. unfold print_missing.
  apply no_zero_division_bind; [by apply print_missing_block|]. intros _ _.
  apply no_zero_division_bind; [by apply print_missing_block|]. intros _ _.
  by apply print_missing_block.
Qed.

(** The two call sites pass such arguments: [diff_set] the union of the
    key sets, [compare_selected] the selection. *)
Lemma diff_set_no_zero_division (keys1 keys2 : gset pykey) (v : option Z) :
  no_zero_division (diff_set keys1 keys2 {| kw_verbosity := v; kw_common := None |}).
Proof.
  unfold diff_set. cbv zeta. rewrite diff_set_common_default.
  apply no_zero_division_bind.
  - apply print_missing_no_zero_division; set_solver.
  - intros _ _. destruct (0 <? len (keys1 ∖ keys2)); returns_ok.
Qed.

Lemma compare_selected_print_missing (matching_keys keys1 keys2 : gset pykey) (v : Z) :
  no_zero_division
    (print_missing (missing_keys matching_keys keys1) (missing_keys matching_keys keys2)
                   (common_keys matching_keys keys1 keys2) v (len matching_keys)).
Proof.
  apply print_missing_no_zero_division; unfold missing_keys, common_keys; set_solver.
Qed.

(** C10.  No percentage in the reports divides by zero:
    [print_content_status] always completes, and [print_missing], called
    with three subsets of a set and the size of that set as total, never
    ends in [ZeroDivisionError]. *)
Theorem reports_never_divide_by_zero
        (cs : content_status) (missing1 missing2 common all : gset pykey) (verbosity : Z) :
  missing1 ⊆ all -> missing2 ⊆ all -> common ⊆ all ->
  outcome (print_content_status cs) = Ok tt /\
  no_zero_division (print_missing missing1 missing2 common verbosity (len all)).
Proof.
  intros H1 H2 Hc. split.
  - apply print_content_status_ok.
  - by apply print_missing_no_zero_division.
Qed.

Lemma reports_never_divide_by_zero_witness :
  outcome (print_content_status {| OK := 0; BAD := 0 |}) = Ok tt /\
  no_zero_division (print_missing ∅ {[ KStr "h" ]} ∅ 2 (len ({[ KStr "h" ]} : gset pykey))).
Proof.
  apply (reports_never_divide_by_zero _ ∅ {[ KStr "h" ]} ∅ {[ KStr "h" ]} 2);
    set_solver.
Defined.

(** *** The orchestrator *)

Lemma bind_lift_ok {A B} (a : A) (f : A -> M B) : bind (lift (Ok a)) f = f a.
Proof. unfold bind, lift. simpl. by destruct (f a). Qed.

Lemma bind_pure {A B} (a : A) (f : A -> M B) : bind ([], Ok a) f = f a.
Proof. apply bind_lift_ok. Qed.

Lemma len_nonempty (s : gset pykey) : s <> ∅ -> (len s =? 0) = false.
Proof. intros H%len_pos_iff. apply Z.ltb_lt in H. apply Z.eqb_neq. lia. Qed.

(** Past the identity test and the key extraction, in full
    content-comparison mode, [main] is selection then comparison. *)
Lemma main_full_mode os run_diff args tf1 tf2 keys1 keys2 :
  same_file tf1 tf2 = false ->
  args_diff args = false -> args_set args = false ->
  keys_of_file os 1 tf1 = Ok keys1 -> keys_of_file os 2 tf2 = Ok keys2 ->
  main os run_diff args tf1 tf2 =
  bind (select_keys args keys1 keys2) (fun sel =>
    match sel with
    | inr code => ret (Some code)
    | inl matching_keys => compare_selected args tf1 tf2 keys1 keys2 matching_keys
    end).
Proof.
  unfold same_file, main. intros -> -> -> -> ->. by rewrite !bind_lift_ok.
Qed.

Lemma select_keys_no_match args keys1 keys2 plot :
  args_plot args = Some plot ->
  filter_keys (search plot) (keys1 ∪ keys2) = Ok ∅ ->
  select_keys args keys1 keys2 =
  ([PrintTotalKeys (len (keys1 ∪ keys2)); PrintNoKeysMatching (pattern plot)],
   Ok (inr (value CLARG_ERROR))).
Proof. unfold select_keys. intros -> ->. reflexivity. Qed.

Lemma select_keys_all_excluded args keys1 keys2 plot_exclude matching_keys out :
  selected_by_plot args keys1 keys2 matching_keys out ->
  args_plot_exclude args = Some plot_exclude ->
  filter_keys (fun k => negb (search plot_exclude k)) matching_keys = Ok ∅ ->
  select_keys args keys1 keys2 =
  (PrintTotalKeys (len (keys1 ∪ keys2)) :: out ++ [PrintAllExcluded (pattern plot_exclude)],
   Ok (inr (value CLARG_ERROR))).
Proof.
  unfold select_keys. intros [Hp | plot m Hp Hm Hne] -> Hex.
  - rewrite Hp. unfold bind, print, ret, lift. simpl. rewrite Hex. reflexivity.
  - rewrite Hp, Hm. unfold bind, print, ret, lift. simpl.
    rewrite (len_nonempty m Hne). simpl. rewrite Hex. reflexivity.
Qed.

(** C6, amended.  Two arguments that name the same file are detected in
    every run, before anything else; a [--plot] expression that matches
    no key and a [--plot-exclude] expression that excludes every
    remaining key are detected in full content-comparison mode (neither
    [--diff] nor [--set]) once both key sets are extracted.  Each
    condition prints its message and makes [main] return [CLARG_ERROR];
    nothing else is printed, so no comparison is made. *)
Theorem main_reports_clarg_error os run_diff args tf1 tf2 (out : list event) :
  clarg_error os args tf1 tf2 out ->
  main os run_diff args tf1 tf2 = (out, Ok (Some (value CLARG_ERROR))) /\
  run os run_diff args tf1 tf2 = 2.
Proof.
  intros Herr.
  assert (main os run_diff args tf1 tf2 = (out, Ok (Some (value CLARG_ERROR)))) as Hmain.
  { destruct Herr as [Hsame | keys1 keys2 plot Hsame Hd Hs Hk1 Hk2 Hp Hf
                            | keys1 keys2 excl m out Hsame Hd Hs Hk1 Hk2 Hsel He Hf].
    - unfold same_file in Hsame. unfold main. by rewrite Hsame.
    - rewrite (main_full_mode _ _ _ _ _ keys1 keys2) by done.
      by rewrite (select_keys_no_match _ _ _ plot).
    - rewrite (main_full_mode _ _ _ _ _ keys1 keys2) by done.
      rewrite (select_keys_all_excluded _ _ _ excl m out) by done.
      unfold bind, ret. simpl. by rewrite app_nil_r. }
  split; [done|]. unfold run. by rewrite Hmain.
Qed.

Lemma main_reports_clarg_error_witness :
  let tf1 := Sample.single 1 "h" Sample.h_empty in
  let tf2 := Sample.single 2 "h" Sample.h_filled in
  main None Sample.diff_ok Sample.args_full_plot tf1 tf2 =
    ([PrintTotalKeys (len ({[ KStr "h" ]} ∪ {[ KStr "h" ]}));
      PrintNoKeysMatching "zzz"], Ok (Some (value CLARG_ERROR))) /\
  run None Sample.diff_ok Sample.args_full_plot tf1 tf2 = 2.
Proof.
  intros tf1 tf2. apply main_reports_clarg_error.
  apply (no_key_matches None Sample.args_full_plot tf1 tf2
                        {[ KStr "h" ]} {[ KStr "h" ]} Sample.no_match);
    vm_compute; reflexivity.
Defined.

(** C6 as stated fails in set-only mode: with [--set] and a [--plot]
    expression that matches none of the keys, the expression is never
    looked at, and the run ends like any other set comparison. *)
Lemma main_set_mode_ignores_plot :
  let tf1 := Sample.single 1 "h" Sample.h_empty in
  let tf2 := Sample.single 2 "h" Sample.h_filled in
  keys_of_file None 1 tf1 = Ok {[ KStr "h" ]} /\
  keys_of_file None 2 tf2 = Ok {[ KStr "h" ]} /\
  args_plot Sample.args_set_plot = Some Sample.no_match /\
  filter_keys (search Sample.no_match) ({[ KStr "h" ]} ∪ {[ KStr "h" ]}) = Ok ∅ /\
  main None Sample.diff_ok Sample.args_set_plot tf1 tf2 = ([], Ok None) /\
  outcome (main None Sample.diff_ok Sample.args_set_plot tf1 tf2)
    <> Ok (Some (value CLARG_ERROR)) /\
  run None Sample.diff_ok Sample.args_set_plot tf1 tf2 <> 2.
Proof. repeat split; vm_compute; congruence. Qed.

(** [sorted] keeps the elements. *)
Lemma elem_of_sorted (s : gset pykey) (plots : list pykey) (k : pykey) :
  sorted s = Ok plots -> k ∈ plots <-> k ∈ s.
Proof.
  unfold sorted. destruct (length (elements s) <=? 1)%nat.
  - intros [= <-]. apply elem_of_elements.
  - destruct (mapR as_str (elements s)) as [strs|e] eqn:E; simpl; [|done].
    apply mapR_as_str in E. intros [= <-].
    rewrite <- elem_of_elements, E.
    by rewrite (merge_sort_Permutation string_le strs).
Qed.




(** *** Runs that complete *)

Lemma returns_bind {A B} (m : M A) (f : A -> M B) :
  returns m -> (forall a, outcome m = Ok a -> returns (f a)) -> returns (bind m f).
Proof.
  unfold returns. intros [a Ha] Hf. rewrite outcome_bind, Ha. by apply Hf.
Qed.

(** Away from verbosity 2, [compare_plot] returns for every pair. *)
Lemma compare_plot_returns h1 h2 v : v <> 2 -> returns (compare_plot h1 h2 v).
Proof.
  intros Hv.
  destruct (InheritsFromTH1 h1) eqn:H1; [destruct (InheritsFromTH1 h2) eqn:H2|].
  - destruct (Z.eqb_spec (GetDimension h1) (GetDimension h2)) as [Hd|Hd].
    + destruct (Z.eqb_spec (GetNcells h1) (GetNcells h2)) as [Hn|Hn].
      * destruct (compare_plot_compatible h1 h2 v H1 H2 Hd Hn) as [E|(_ & E & _)]; [|done].
        by eexists.
      * apply Z.eqb_neq in Hn. unfold compare_plot.
        rewrite H1, H2, Hd, Z.eqb_refl, Hn. simpl. by eexists.
    + apply Z.eqb_neq in Hd. unfold compare_plot. rewrite H1, H2, Hd. simpl. by eexists.
  - unfold compare_plot. rewrite H1, H2. simpl. destruct (1 <=? v); by eexists.
  - unfold compare_plot. rewrite H1. simpl. destruct (1 <=? v); by eexists.
Qed.

Lemma compare_common_returns tf1 tf2 v (plots : list pykey) (cs0 : content_status) :
  v <> 2 ->
  (forall plot, plot ∈ plots ->
                exists p, plot = KStr p /\ is_Some (Get tf1 p) /\ is_Some (Get tf2 p)) ->
  returns (compare_common tf1 tf2 v plots cs0).
Proof.
  intros Hv. revert cs0. induction plots as [|plot plots IH]; intros cs0 Hget; simpl.
  - by eexists.
  - destruct (Hget plot) as (p & -> & [h1 G1] & [h2 G2]); [by left|].
    unfold lift, get_both. cbn [as_str]. rewrite bind_pure, G1, G2, bind_pure.
    apply returns_bind; [by apply compare_plot_returns|].
    intros ok_content _. apply IH. intros plot' Hin. apply Hget. by right.
Qed.

(** Generator objects of one file never occur among the keys of the
    other, hence never among the common keys. *)
Lemma set_of_yielded_generator (file : nat) (ys : list yielded) (f n : nat) :
  KGen f n ∈ set_of_yielded file ys -> f = file.
Proof.
  unfold set_of_yielded. rewrite elem_of_list_to_set, elem_of_lookup_imap.
  intros (i & y & E & _). by destruct y; simplify_eq/=.
Qed.

Lemma common_keys_strings os tf1 tf2 (keys1 keys2 matching_keys : gset pykey) (k : pykey) :
  keys_of_file os 1 tf1 = Ok keys1 -> keys_of_file os 2 tf2 = Ok keys2 ->
  k ∈ common_keys matching_keys keys1 keys2 -> exists p, k = KStr p.
Proof.
  unfold keys_of_file, common_keys.
  destruct (get_list_of_keys_deep os (GetListOfKeys tf1)) as [ys1|]; simpl; [|done].
  destruct (get_list_of_keys_deep os (GetListOfKeys tf2)) as [ys2|]; simpl; [|done].
  intros [= <-] [= <-]. rewrite !elem_of_intersection. intros [[_ Hk1] Hk2].
  destruct k as [p|f n]; [by exists p|].
  apply set_of_yielded_generator in Hk1, Hk2. congruence.
Qed.

Lemma mapR_as_str_strings (l : list pykey) :
  (forall k, k ∈ l -> exists p, k = KStr p) -> exists strs, mapR as_str l = Ok strs.
Proof.
  induction l as [|k l IH]; intros H; simpl; [by eexists|].
  destruct (H k) as [p ->]; [by left|]. simpl.
  destruct IH as [strs ->]; [intros k' Hk'; apply H; by right|]. by eexists.
Qed.

Lemma sorted_strings (s : gset pykey) :
  (forall k, k ∈ s -> exists p, k = KStr p) -> exists plots, sorted s = Ok plots.
Proof.
  intros H. unfold sorted. destruct (length (elements s) <=? 1)%nat; [by eexists|].
  destruct (mapR_as_str_strings (elements s)) as [strs ->]; [|by eexists].
  intros k Hk. apply H. by apply elem_of_elements.
Qed.

(** Below verbosity 2 no key is printed, and [print_missing] returns. *)
Lemma print_missing_block_quiet (s all : gset pykey) (line : Z -> Z -> float -> event) :
  s ⊆ all ->
  returns
    (if 0 <? len s then
       let* pct := lift (int_truediv (100 * len s) (len all)) in
       print (line (len s) (len all) pct) >> ret tt
     else ret tt).
Proof.
  intros Hsub. destruct (0 <? len s) eqn:Hpos; [|by eexists].
  apply Z.ltb_lt in Hpos. apply subseteq_size in Hsub. unfold len in *.
  destruct (int_truediv_ok (100 * Z.of_nat (size s)) (Z.of_nat (size all))) as [q ->]; [lia|].
  by eexists.
Qed.

Lemma print_missing_returns (missing1 missing2 common all : gset pykey) (v : Z) :
  v < 2 -> missing1 ⊆ all -> missing2 ⊆ all -> common ⊆ all ->
  returns (print_missing missing1 missing2 common v (len all)).
Proof.
  intros Hv H1 H2 Hc. unfold print_missing.
  replace (2 <=? v) with false by (symmetry; apply Z.leb_gt; lia).
  replace (4 <=? v) with false by (symmetry; apply Z.leb_gt; lia).
  apply returns_bind; [by apply print_missing_block_quiet|]. intros _ _.
  apply returns_bind; [by apply print_missing_block_quiet|]. intros _ _.
  by apply print_missing_block_quiet.
Qed.

(** At the default verbosity and below, a run in full
    content-comparison mode whose keys are extracted and selected, and
    whose common keys can be retrieved from both files, ends with an exit
    code. *)
Lemma main_full_mode_returns os run_diff args tf1 tf2
      (keys1 keys2 matching_keys : gset pykey) :
  same_file tf1 tf2 = false ->
  args_diff args = false -> args_set args = false ->
  keys_of_file os 1 tf1 = Ok keys1 -> keys_of_file os 2 tf2 = Ok keys2 ->
  outcome (select_keys args keys1 keys2) = Ok (inl matching_keys) ->
  args_verbosity args < 2 ->
  (forall p, KStr p ∈ common_keys matching_keys keys1 keys2 ->
             is_Some (Get tf1 p) /\ is_Some (Get tf2 p)) ->
  exists code, outcome (main os run_diff args tf1 tf2) = Ok (Some code).
Proof.
  intros Hsame Hd Hs Hk1 Hk2 Hsel Hv Hget.
  rewrite (main_full_mode _ _ _ _ _ keys1 keys2) by done.
  rewrite outcome_bind, Hsel. unfold compare_selected.
  destruct (sorted_strings (common_keys matching_keys keys1 keys2)) as [plots Hplots].
  { intros k. by apply (common_keys_strings os tf1 tf2). }
  rewrite Hplots, bind_lift_ok.
  destruct (compare_common_returns tf1 tf2 (args_verbosity args) plots {| OK := 0; BAD := 0 |})
    as [cs Hcs]; [lia| |].
  { intros plot Hin. apply (elem_of_sorted _ _ _ Hplots) in Hin.
    destruct (common_keys_strings os tf1 tf2 _ _ _ _ Hk1 Hk2 Hin) as [p ->].
    exists p. split; [done|]. by apply Hget. }
  rewrite outcome_bind, Hcs.
  destruct (print_missing_returns (missing_keys matching_keys keys1)
              (missing_keys matching_keys keys2) (common_keys matching_keys keys1 keys2)
              matching_keys (args_verbosity args)) as [[] Hpm];
    [done | unfold missing_keys; set_solver | unfold missing_keys; set_solver
     | unfold common_keys; set_solver |].
  rewrite outcome_bind, Hpm. rewrite outcome_bind. unfold outcome at 1. simpl.
  rewrite outcome_bind, print_content_status_ok. by eexists.
Qed.

(** ** Further properties *)

(** *** What [compare_plot] prints *)

Lemma output_bind {A B} (m : M A) (f : A -> M B) :
  output (bind m f) =
  output m ++ match outcome m with
              | Ok a => output (f a)
              | Raise _ => []
              end.
Proof. destruct m as [out [a|e]]; unfold output; simpl; by rewrite ?app_nil_r. Qed.

Lemma headers_app (out1 out2 : list event) :
  headers (out1 ++ out2) = (headers out1 + headers out2)%nat.
Proof. unfold headers. by rewrite List.filter_app, length_app. Qed.

Lemma headers_cons (e : event) (out : list event) :
  headers (e :: out) = (Nat.b2n (is_header e) + headers out)%nat.
Proof. unfold headers. simpl. by destruct (is_header e). Qed.

Lemma output_print_bind {B} (e : event) (f : unit -> M B) :
  output (bind (print e) f) = e :: output (f tt).
Proof. reflexivity. Qed.

Lemma outcome_print_bind {B} (e : event) (f : unit -> M B) :
  outcome (bind (print e) f) = outcome (f tt).
Proof. reflexivity. Qed.

(** The flag [printed_header] counts the headers: it is set exactly when
    one header is out. *)
Lemma print_header_headers h1 (ph : bool) :
  exists ph', outcome (print_header h1 ph) = Ok ph' /\ ph' = true /\
              (Nat.b2n ph + headers (output (print_header h1 ph)))%nat = 1%nat.
Proof. destruct ph; exists true; repeat split. Qed.

Lemma scan_bins_headers h1 h2 v (bins : list Z) (ph ok : bool) :
  exists ph' ok',
    outcome (scan_bins h1 h2 v bins ph ok) = Ok (ph', ok') /\
    (Nat.b2n ph + headers (output (scan_bins h1 h2 v bins ph ok)))%nat = Nat.b2n ph'.
Proof.
  revert ph ok. induction bins as [|b bins IH]; intros ph ok; simpl.
  - exists ph, ok. split; [done|]. unfold output, headers. simpl. lia.
  - destruct (float_ne (GetBinContent h1 b) (GetBinContent h2 b)); [|apply IH].
    destruct (print_every_bin v).
    + destruct (print_header_headers h1 ph) as (ph1 & Eph & -> & Hh).
      destruct (IH true false) as (ph' & ok' & Escan & Hscan).
      exists ph', ok'. rewrite outcome_bind, Eph, outcome_bind. split; [done|].
      rewrite output_bind, Eph, output_print_bind, headers_app, headers_cons.
      simpl in Hscan |- *. lia.
    + exists ph, false. split; [done|]. unfold output, headers. simpl. lia.
Qed.

Lemma report_plot_headers h1 h2 v (ok : bool) :
  headers (output (report_plot h1 h2 v ok)) = 0%nat.
Proof.
  unfold report_plot.
  destruct ((print_wrong_plot v || print_good_plot v) && negb (print_every_bin v)); [|done].
  destruct ok; simpl.
  - by destruct (print_good_plot v).
  - destruct (float_eq (Integral h1) (Integral h2)); [done|].
    unfold float_truediv. by destruct (float_eq (Integral h1) (S754_zero false)).
Qed.

(** X1.  Whatever the two objects and the verbosity, [compare_plot]
    prints the header line ['# name #'] at most once. *)
Theorem compare_plot_header_at_most_once (h1 h2 : TObject) (verbosity : Z) :
  (headers (output (compare_plot h1 h2 verbosity)) <= 1)%nat.
Proof.
  unfold compare_plot.
  destruct (negb (InheritsFromTH1 h1) || negb (InheritsFromTH1 h2)).
  { destruct (1 <=? verbosity); cbv; lia. }
  destruct (negb (GetDimension h1 =? GetDimension h2)); [cbv; lia|].
  cbv zeta. destruct (negb (GetNcells h1 =? GetNcells h2)); [cbv; lia|].
  destruct (scan_bins_headers h1 h2 verbosity (range (GetNcells h1)) false true)
    as (ph & ok & Escan & Hscan).
  rewrite output_bind, Escan, headers_app. simpl in Hscan. rewrite Hscan.
  rewrite output_bind, headers_app, report_plot_headers.
  destruct (outcome (report_plot h1 h2 verbosity ok)); [|destruct ph; cbv; lia].
  rewrite output_bind, headers_app.
  destruct (ok && print_ok verbosity).
  - destruct (print_header_headers h1 ph) as (ph1 & Eph & -> & Hh).
    rewrite output_bind, Eph, headers_app, outcome_bind, Eph.
    unfold outcome at 1. simpl.
    change (headers (output (print PrintOK))) with 0%nat.
    change (headers (output (ret (Some ok)))) with 0%nat. lia.
  - unfold outcome at 1. simpl.
    change (headers (output (ret tt))) with 0%nat.
    change (headers (output (ret (Some ok)))) with 0%nat. destruct ph; simpl; lia.
Qed.

Lemma bind_ret {A B} (a : A) (f : A -> M B) : bind (ret a) f = f a.
Proof. apply bind_lift_ok. Qed.

Lemma bin_lines_print_header h1 (ph : bool) :
  List.filter is_bin_line (output (print_header h1 ph)) = [].
Proof. by destruct ph. Qed.

(** With [print_every_bin] the scan visits every cell and prints one
    line for each cell that differs. *)
Lemma scan_bins_lines h1 h2 v (bins : list Z) (ph ok : bool) :
  print_every_bin v = true ->
  List.filter is_bin_line (output (scan_bins h1 h2 v bins ph ok)) =
  map (bin_line h1 h2)
      (List.filter (fun b => float_ne (GetBinContent h1 b) (GetBinContent h2 b)) bins).
Proof.
  intros Hv. revert ph ok. induction bins as [|b bins IH]; intros ph ok; simpl; [done|].
  destruct (float_ne (GetBinContent h1 b) (GetBinContent h2 b)); [|apply IH].
  rewrite Hv. rewrite output_bind, List.filter_app, bin_lines_print_header.
  destruct (outcome_print_header h1 ph) as [ph' ->].
  rewrite output_print_bind. simpl. by rewrite IH.
Qed.

(** X2.  At verbosity 3 and above, for two compatible histograms, the
    bin lines that [compare_plot] prints are exactly the lines of the
    cells whose contents differ, each once, in ascending order of the
    cell index. *)
Theorem compare_plot_lists_differing_bins (h1 h2 : TObject) (verbosity : Z) :
  compatible h1 h2 -> 3 <= verbosity ->
  List.filter is_bin_line (output (compare_plot h1 h2 verbosity)) =
  map (bin_line h1 h2) (differing_bins h1 h2).
Proof.
  intros (H1 & H2 & Hd & Hn) Hv. unfold compare_plot, differing_bins.
  rewrite H1, H2, Hd, <- Hn, !Z.eqb_refl. simpl.
  assert (Hevery : print_every_bin verbosity = true) by (by apply Z.leb_le).
  destruct (scan_bins_outcome h1 h2 verbosity (range (GetNcells h1)) false true) as [ph Hscan].
  rewrite output_bind, Hscan, List.filter_app, scan_bins_lines by done.
  rewrite <- (app_nil_r (map _ _)) at 2. f_equal.
  unfold report_plot. rewrite Hevery, andb_false_r.
  rewrite bind_ret.
  set (same := true && forallb _ _). destruct (same && print_ok verbosity); [|reflexivity].
  destruct ph; reflexivity.
Qed.

Lemma compare_plot_lists_differing_bins_witness :
  List.filter is_bin_line (output (compare_plot Sample.h_empty Sample.h_filled 3)) =
  map (bin_line Sample.h_empty Sample.h_filled)
      (differing_bins Sample.h_empty Sample.h_filled).
Proof.
  apply compare_plot_lists_differing_bins; [by repeat split | lia].
Defined.

(** Without [print_every_bin] the scan prints nothing. *)
Lemma scan_bins_silent h1 h2 v (bins : list Z) (ph ok : bool) :
  print_every_bin v = false ->
  scan_bins h1 h2 v bins ph ok =
  ([], Ok (ph, ok && forallb (fun b => float_eq (GetBinContent h1 b) (GetBinContent h2 b)) bins)).
Proof.
  intros Hv. revert ok. induction bins as [|b bins IH]; intros ok; simpl.
  - by rewrite andb_true_r.
  - unfold float_ne, float_eq.
    destruct (SFeqb (GetBinContent h1 b) (GetBinContent h2 b)); simpl.
    + apply IH.
    + by rewrite Hv, andb_false_r.
Qed.

(** X3.  Below verbosity 2 (quiet and default), [compare_plot] prints
    nothing about two compatible histograms and returns whether all
    their cells compare equal. *)
Theorem compare_plot_silent_below_2 (h1 h2 : TObject) (verbosity : Z) :
  compatible h1 h2 -> verbosity < 2 ->
  compare_plot h1 h2 verbosity =
  ([], Ok (Some (forallb (fun b => float_eq (GetBinContent h1 b) (GetBinContent h2 b))
                         (range (GetNcells h1))))).
Proof.
  intros (H1 & H2 & Hd & Hn) Hv. unfold compare_plot.
  rewrite H1, H2, Hd, <- Hn, !Z.eqb_refl. simpl.
  assert (print_every_bin verbosity = false) as Hevery by (apply Z.leb_gt; lia).
  assert (print_wrong_plot verbosity = false) as Hwrong by (apply Z.leb_gt; lia).
  assert (print_good_plot verbosity = false) as Hgood by (apply Z.leb_gt; lia).
  assert (print_ok verbosity = false) as Hok by (apply Z.leb_gt; lia).
  rewrite scan_bins_silent by done. rewrite bind_pure.
  unfold report_plot. rewrite Hwrong, Hgood, Hok, andb_false_r. simpl.
  by rewrite !bind_ret.
Qed.

Lemma compare_plot_silent_below_2_witness :
  compare_plot Sample.h_empty Sample.h_filled 1 =
  ([], Ok (Some (forallb (fun b => float_eq (GetBinContent Sample.h_empty b)
                                            (GetBinContent Sample.h_filled b))
                         (range (GetNcells Sample.h_empty))))).
Proof.
  apply compare_plot_silent_below_2; [by repeat split | lia].
Defined.

(** *** Comparing a histogram with itself, and in the other order *)

Lemma float_eq_refl (x : float) : float_eq x x = negb (is_nan x).
Proof.
  destruct x as [s|s| |s m e]; simpl; try done.
  - by destruct s.
  - unfold float_eq, SFeqb, SFcompare.
    rewrite Z.compare_refl, Pos.compare_cont_refl. by destruct s.
Qed.

Lemma float_eq_sym (x y : float) : float_eq x y = float_eq y x.
Proof.
  unfold float_eq, SFeqb.
  destruct x as [s|s| |s m e], y as [s'|s'| |s' m' e']; simpl; try done;
    try (by destruct s); try (by destruct s'); try (by destruct s, s').
  pose proof (Z.compare_antisym e e') as He.
  pose proof (Pos.compare_cont_antisym m' m Eq) as Hm. simpl in Hm.
  change (PosDef.Pos.compare_cont Eq m m') with (Pos.compare_cont Eq m m').
  change (PosDef.Pos.compare_cont Eq m' m) with (Pos.compare_cont Eq m' m).
  rewrite He, <- Hm.
  destruct s, s'; simpl; try done;
    destruct (e ?= e'); simpl; try done;
    by destruct (Pos.compare_cont Eq m' m).
Qed.

Lemma forallb_float_eq_sym h1 h2 (bins : list Z) :
  forallb (fun b => float_eq (GetBinContent h1 b) (GetBinContent h2 b)) bins =
  forallb (fun b => float_eq (GetBinContent h2 b) (GetBinContent h1 b)) bins.
Proof. induction bins as [|b bins IH]; simpl; [done|]. by rewrite IH, float_eq_sym. Qed.

(** X4.  A histogram compared with itself is classified identical
    exactly when none of its cells holds NaN; this holds at every
    verbosity. *)
Theorem compare_plot_self (h : TObject) (verbosity : Z) :
  InheritsFromTH1 h = true ->
  outcome (compare_plot h h verbosity) = Ok (Some true) <->
  (forall b, 0 <= b < GetNcells h -> is_nan (GetBinContent h b) = false).
Proof.
  intros Hh.
  destruct (compare_plot_compatible h h verbosity Hh Hh eq_refl eq_refl) as [E|(Hf & _ & _ & E)];
    simpl in *; rewrite E.
  - split.
    + intros [= Hall] b Hb. rewrite forallb_forall in Hall.
      specialize (Hall b (proj2 (in_range _ _) Hb)).
      rewrite float_eq_refl in Hall. by apply negb_true_iff.
    + intros Hnan. do 2 f_equal. apply forallb_forall. intros b Hb%in_range.
      rewrite float_eq_refl, (Hnan b Hb). done.
  - split; [done|]. intros Hnan. exfalso.
    assert (forallb (fun b => float_eq (GetBinContent h b) (GetBinContent h b))
                    (range (GetNcells h)) = true); [|congruence].
    apply forallb_forall. intros b Hb%in_range.
    rewrite float_eq_refl, (Hnan b Hb). done.
Qed.

Lemma compare_plot_self_witness :
  outcome (compare_plot Sample.h_filled Sample.h_filled 2) = Ok (Some true) <->
  (forall b, 0 <= b < GetNcells Sample.h_filled ->
             is_nan (GetBinContent Sample.h_filled b) = false).
Proof. apply compare_plot_self. reflexivity. Defined.

(** X5.  The classification does not depend on the order of the two
    objects: whenever [compare_plot] returns for both orders, it returns
    the same value. *)
Theorem compare_plot_symmetric (h1 h2 : TObject) (verbosity : Z) (r r' : option bool) :
  outcome (compare_plot h1 h2 verbosity) = Ok r ->
  outcome (compare_plot h2 h1 verbosity) = Ok r' ->
  r = r'.
Proof.
  destruct (InheritsFromTH1 h1) eqn:H1; [destruct (InheritsFromTH1 h2) eqn:H2|].
  - destruct (Z.eqb_spec (GetDimension h1) (GetDimension h2)) as [Hd|Hd].
    + destruct (Z.eqb_spec (GetNcells h1) (GetNcells h2)) as [Hn|Hn].
      * intros Hv Hv'.
        destruct (compare_plot_compatible h1 h2 verbosity H1 H2 Hd Hn) as [E|(_ & _ & _ & E)];
          [|congruence].
        destruct (compare_plot_compatible h2 h1 verbosity H2 H1 (eq_sym Hd) (eq_sym Hn))
          as [E'|(_ & _ & _ & E')]; [|congruence].
        simpl in E, E'. rewrite Hn, forallb_float_eq_sym in E. congruence.
      * assert ((GetNcells h2 =? GetNcells h1) = false) as Hn' by (apply Z.eqb_neq; congruence).
        apply Z.eqb_neq in Hn. unfold compare_plot.
        rewrite H1, H2, Hd, Z.eqb_refl, Hn, Hn'. simpl.
        rewrite !outcome_bind. simpl. congruence.
    + assert ((GetDimension h2 =? GetDimension h1) = false) as Hd'
          by (apply Z.eqb_neq; congruence).
      apply Z.eqb_neq in Hd. unfold compare_plot. rewrite H1, H2, Hd, Hd'. simpl.
      rewrite !outcome_bind. simpl. congruence.
  - unfold compare_plot. rewrite H1, H2. simpl. rewrite !outcome_bind.
    destruct (1 <=? verbosity); simpl; rewrite ?outcome_bind; simpl; congruence.
  - unfold compare_plot. rewrite H1. rewrite orb_true_r. simpl. rewrite !outcome_bind.
    destruct (1 <=? verbosity); simpl; rewrite ?outcome_bind; simpl; congruence.
Qed.

Lemma compare_plot_symmetric_witness :
  outcome (compare_plot Sample.h_empty Sample.h_filled 1) = Ok (Some false) /\
  outcome (compare_plot Sample.h_filled Sample.h_empty 1) = Ok (Some false) /\
  Some false = Some false.
Proof.
  split; [reflexivity|]. split; [reflexivity|].
  apply (compare_plot_symmetric Sample.h_empty Sample.h_filled 1); reflexivity.
Defined.

(** *** Key enumeration as the module is written, and with [os] bound *)

Lemma mapR_app {A B} (f : A -> result B) (l1 l2 : list A) :
  mapR f (l1 ++ l2) =
  rbind (mapR f l1) (fun bs1 => rbind (mapR f l2) (fun bs2 => Ok (bs1 ++ bs2))).
Proof.
  induction l1 as [|a l1 IH]; simpl.
  - by destruct (mapR f l2).
  - destruct (f a); simpl; [|done]. rewrite IH.
    destruct (mapR f l1); simpl; [|done]. by destruct (mapR f l2).
Qed.





Lemma get_keys_in_folder_bound join (keys : list TKey) (path : string) :
  exists ys, get_keys_in_folder (Some join) keys path = Ok ys /\
             forall p, YPath p ∈ ys -> p ∈ flat_map (leaf_paths_below join path) keys.
Proof.
  unfold get_keys_in_folder. induction keys as [|k keys (ys & E & IH)]; simpl in *.
  - exists []. split; [done|]. by intros p ?%elem_of_nil.
  - destruct k as [kname|kname sub]; simpl; rewrite E; simpl; eexists; (split; [done|]);
      intros p [Hp|Hp]%elem_of_cons.
    + injection Hp as ->. by left.
    + right. by apply IH.
    + done.
    + apply elem_of_app. right. by apply IH.
Qed.


(** *** Generator objects among the keys *)

Lemma get_keys_in_folder_generator join (keys : list TKey) (path : string) :
  existsb (fun k => negb (is_object k)) keys = true ->
  exists ys, get_keys_in_folder (Some join) keys path = Ok ys /\
             exists sub p, YGenerator sub p ∈ ys.
Proof.
  intros Hex. destruct (get_keys_in_folder_bound join keys path) as (ys & E & _).
  exists ys. split; [done|]. revert ys E.
  unfold get_keys_in_folder. induction keys as [|k keys IH]; [done|]. simpl in *.
  intros ys. destruct (mapR _ keys) as [ys'|e] eqn:E'; simpl.
  - destruct k as [kname|kname sub]; simpl in *; intros [= <-].
    + destruct (IH Hex ys' eq_refl) as (sub & p & Hin). exists sub, p. by right.
    + eexists _, _. by left.
  - by destruct k.
Qed.

Lemma get_list_of_keys_deep_generator join (tfile : list TKey) :
  existsb holds_folder tfile = true ->
  exists ys, get_list_of_keys_deep (Some join) tfile = Ok ys /\
             exists sub p, YGenerator sub p ∈ ys.
Proof.
  unfold get_list_of_keys_deep. induction tfile as [|k tfile IH]; [done|]. simpl.
  intros Hex.
  assert (exists yss, mapR (fun k => match k with
                                  | KeyFolder kname keys =>
                                      get_keys_in_folder (Some join) keys kname
                                  | KeyObject kname => Ok [YPath kname]
                                  end) tfile = Ok yss) as [yss Eyss].
  { clear. induction tfile as [|k tfile [yss IH]]; simpl; [by eexists|].
    rewrite IH. destruct k as [kname|kname keys]; simpl; [by eexists|].
    destruct (get_keys_in_folder_bound join keys kname) as (ys & -> & _). by eexists. }
  rewrite Eyss in IH |- *. simpl in IH.
  destruct k as [kname|kname keys]; simpl in *.
  - destruct (IH Hex) as (ys & [= <-] & sub & p & Hin).
    eexists. split; [done|]. exists sub, p. by right.
  - destruct (get_keys_in_folder_bound join keys kname) as (ys1 & E1 & _). rewrite E1. simpl.
    eexists. split; [done|]. apply orb_prop in Hex as [Hk|Hex].
    + destruct (get_keys_in_folder_generator join keys kname Hk) as (ys1' & E1' & sub & p & Hin).
      rewrite E1 in E1'. injection E1' as <-.
      exists sub, p. apply elem_of_app. by left.
    + destruct (IH Hex) as (ys & [= <-] & sub & p & Hin).
      exists sub, p. apply elem_of_app. by right.
Qed.

Lemma keys_of_file_bound join (file : nat) (tf : TFile) :
  exists keys, keys_of_file (Some join) file tf = Ok keys.
Proof.
  unfold keys_of_file.
  assert (exists ys, get_list_of_keys_deep (Some join) (GetListOfKeys tf) = Ok ys) as [ys ->];
    [|by eexists].
  unfold get_list_of_keys_deep.
  induction (GetListOfKeys tf) as [|k tfile [ys IH]]; simpl; [by eexists|].
  destruct (mapR _ tfile) as [yss|e]; simpl in *; [|done].
  destruct k as [kname|kname keys]; simpl; [by eexists|].
  destruct (get_keys_in_folder_bound join keys kname) as (ys1 & -> & _). by eexists.
Qed.

Lemma keys_of_file_generator join (file : nat) (tf : TFile) :
  existsb holds_folder (GetListOfKeys tf) = true ->
  exists keys n, keys_of_file (Some join) file tf = Ok keys /\ KGen file n ∈ keys.
Proof.
  intros Hex. unfold keys_of_file.
  destruct (get_list_of_keys_deep_generator join _ Hex) as (ys & -> & sub & p & Hin).
  simpl. apply list_elem_of_lookup in Hin as [i Hi].
  exists (set_of_yielded file ys), i. split; [done|].
  unfold set_of_yielded. apply elem_of_list_to_set.
  apply (elem_of_lookup_imap_2 (key_of_yielded file)) in Hi. done.
Qed.

Lemma keys_of_file_foreign os (file : nat) (tf : TFile) (keys : gset pykey) (f n : nat) :
  keys_of_file os file tf = Ok keys -> KGen f n ∈ keys -> f = file.
Proof.
  unfold keys_of_file. destruct (get_list_of_keys_deep os _); simpl; [|done].
  intros [= <-]. apply set_of_yielded_generator.
Qed.

Lemma mapR_as_str_generator (l : list pykey) (f n : nat) :
  KGen f n ∈ l -> mapR as_str l = Raise TypeError.
Proof.
  intros Hin. destruct (mapR as_str l) as [strs|e] eqn:E.
  - apply mapR_as_str in E. subst l. by apply list_elem_of_fmap in Hin as (x & ? & _).
  - by apply mapR_as_str_raises in E as ->.
Qed.

Lemma filter_keys_generator (p : string -> bool) (s : gset pykey) (f n : nat) :
  KGen f n ∈ s -> filter_keys p s = Raise TypeError.
Proof.
  intros Hin. unfold filter_keys.
  rewrite (mapR_as_str_generator _ f n); [done|]. by apply elem_of_elements.
Qed.

Lemma sorted_lines_generator (s : gset pykey) (f n : nat) :
  KGen f n ∈ s -> rbind (sorted s) (mapR as_str) = Raise TypeError.
Proof.
  intros Hin%elem_of_elements. unfold sorted.
  destruct (length (elements s) <=? 1)%nat; simpl.
  - by apply (mapR_as_str_generator _ f n).
  - by rewrite (mapR_as_str_generator _ f n).
Qed.

(** A generator object among the keys makes both filters raise: the
    selection, if any, is the whole union. *)
Lemma select_keys_generator args (keys1 keys2 : gset pykey) (f n : nat) sel :
  KGen f n ∈ keys1 ∪ keys2 ->
  outcome (select_keys args keys1 keys2) = Ok sel ->
  sel = inl (keys1 ∪ keys2).
Proof.
  intros Hin. unfold select_keys.
  destruct (args_plot args) as [plot|].
  { rewrite (filter_keys_generator _ _ f n) by done. by unfold outcome, bind, lift. }
  destruct (args_plot_exclude args) as [plot_exclude|].
  { rewrite outcome_print_bind, bind_ret.
    rewrite (filter_keys_generator _ _ f n) by done. by unfold outcome, bind, lift. }
  unfold outcome, bind, print, ret. simpl. by intros [= <-].
Qed.

(** If [compare_selected] returns, it returns the final exit code for
    some pair of counters. *)
Lemma compare_selected_returns args tf1 tf2 (keys1 keys2 matching_keys : gset pykey) r :
  outcome (compare_selected args tf1 tf2 keys1 keys2 matching_keys) = Ok r ->
  exists cs, r = Some (final_status cs (missing_keys matching_keys keys1)
                                    (missing_keys matching_keys keys2)).
Proof.
  unfold compare_selected. rewrite outcome_bind.
  destruct (outcome (lift (sorted _))) as [plots|]; [|done].
  rewrite outcome_bind.
  destruct (outcome (compare_common _ _ _ _ _)) as [cs|]; [|done].
  rewrite outcome_bind. destruct (outcome (print_missing _ _ _ _ _)); [|done].
  rewrite outcome_print_bind, outcome_bind, print_content_status_ok.
  intros [= <-]. by exists cs.
Qed.

(** X9.  With [os] bound, when the first file has a folder inside a
    top-level folder, no run on two different files returns [IDENTICAL]
    or falls through without a value, not even on a copy of the same
    file: the generator object among the keys of file 1 is never a key
    of file 2.  A run that returns at all returns [SECOND_MISS] or
    [DIFFERENCE_COMMON]. *)
Theorem main_nested_folder_never_identical join run_diff args tf1 tf2 (r : option Z) :
  same_file tf1 tf2 = false ->
  existsb holds_folder (GetListOfKeys tf1) = true ->
  outcome (main (Some join) run_diff args tf1 tf2) = Ok r ->
  r = Some (value SECOND_MISS) \/ r = Some (value DIFFERENCE_COMMON).
Proof.
  intros Hsame Hnested.
  destruct (keys_of_file_generator join 1 tf1 Hnested) as (keys1 & n & Hk1 & Hgen).
  destruct (keys_of_file_bound join 2 tf2) as [keys2 Hk2].
  assert (Hnot2 : KGen 1 n ∉ keys2).
  { intros Hin. by apply (keys_of_file_foreign _ _ _ _ _ _ Hk2) in Hin. }
  unfold same_file in Hsame. unfold main. rewrite Hsame, Hk1, Hk2, !bind_lift_ok.
  destruct (args_diff args).
  { unfold diff_full. by rewrite (sorted_lines_generator keys1 1 n). }
  destruct (args_set args).
  { intros Hr%diff_set_returns.
    assert (keys1 ∖ keys2 <> ∅) as Hne%len_pos_iff by set_solver.
    rewrite Hne in Hr. by left. }
  assert (Hunion : KGen 1 n ∈ keys1 ∪ keys2) by set_solver.
  rewrite outcome_bind.
  destruct (outcome (select_keys args keys1 keys2)) as [sel|] eqn:Hsel; [|done].
  apply (select_keys_generator _ _ _ 1 n) in Hsel as ->; [|done].
  intros (cs & ->)%compare_selected_returns.
  assert (missing_keys (keys1 ∪ keys2) keys2 <> ∅) as Hne%len_pos_iff
      by (unfold missing_keys; set_solver).
  unfold final_status. rewrite Hne. destruct (0 <? BAD cs); [by right | by left].
Qed.

Lemma main_nested_folder_never_identical_witness :
  outcome (main (Some posixpath_join) Sample.diff_ok (Sample.args_full 1)
                (Sample2.with_nested 1) (Sample2.with_nested 2))
    = Ok (Some (value SECOND_MISS)) /\
  (Some (value SECOND_MISS) = Some (value SECOND_MISS) \/
   Some (value SECOND_MISS) = Some (value DIFFERENCE_COMMON)).
Proof.
  split; [vm_compute; reflexivity|].
  apply (main_nested_folder_never_identical posixpath_join Sample.diff_ok (Sample.args_full 1)
           (Sample2.with_nested 1) (Sample2.with_nested 2)); vm_compute; reflexivity.
Defined.




(** *** Selection, modes and exit codes of [main] *)

Lemma filter_keys_strings (p : string -> bool) (s m : gset pykey) (k : pykey) :
  filter_keys p s = Ok m -> k ∈ s -> exists x, k = KStr x.
Proof.
  unfold filter_keys.
  destruct (mapR as_str (elements s)) as [strs|e] eqn:E; simpl; [|done].
  apply mapR_as_str in E. intros _ Hk%elem_of_elements. rewrite E in Hk.
  apply list_elem_of_fmap in Hk as (x & -> & _). by exists x.
Qed.

(** X11.  The selection that [main] goes on with holds exactly the keys
    of the two files that [--plot] finds (when given) and
    [--plot-exclude] does not find (when given); and when one of the two
    options is given, the selection is not empty. *)
Theorem select_keys_selected (args : Args) (keys1 keys2 matching_keys : gset pykey) :
  outcome (select_keys args keys1 keys2) = Ok (inl matching_keys) ->
  (forall k, k ∈ matching_keys <->
             k ∈ keys1 ∪ keys2 /\
             match k with
             | KStr p => selected args p = true
             | KGen _ _ => True
             end) /\
  (args_plot args <> None \/ args_plot_exclude args <> None -> matching_keys <> ∅).
Proof.
  unfold select_keys, selected. rewrite outcome_print_bind.
  destruct (args_plot args) as [plot|], (args_plot_exclude args) as [excl|].
  - rewrite outcome_bind, outcome_bind. unfold lift at 1, outcome at 1. simpl.
    destruct (filter_keys (search plot) (keys1 ∪ keys2)) as [m|e] eqn:Em; [|done].
    destruct (Z.eqb_spec (len m) 0) as [|Hm]; [done|].
    rewrite outcome_print_bind. unfold outcome at 1. simpl.
    rewrite outcome_bind, outcome_bind. unfold lift at 1, outcome at 1. simpl.
    destruct (filter_keys _ m) as [m'|e] eqn:Em'; [|done].
    destruct (Z.eqb_spec (len m') 0) as [|Hm']; [done|].
    rewrite outcome_print_bind. unfold outcome at 1. simpl.
    rewrite outcome_print_bind. unfold outcome. simpl. intros [= <-]. split.
    + intros k. rewrite (elem_of_filter_keys _ _ _ k Em').
      split.
      * intros (x & -> & Hx & Hk). apply (elem_of_filter_keys _ _ _ _ Em) in Hk
          as (x' & [= <-] & Hx' & Hk). by rewrite Hx', Hx.
      * intros [Hk Hsel]. destruct (filter_keys_strings _ _ _ k Em Hk) as [x ->].
        apply andb_prop in Hsel as [Hp He]. exists x. repeat split; [done|].
        apply (elem_of_filter_keys _ _ _ _ Em). by exists x.
    + intros _ ->. by apply Hm'.
  - rewrite outcome_bind, outcome_bind. unfold lift at 1, outcome at 1. simpl.
    destruct (filter_keys (search plot) (keys1 ∪ keys2)) as [m|e] eqn:Em; [|done].
    destruct (Z.eqb_spec (len m) 0) as [|Hm]; [done|].
    rewrite outcome_print_bind. unfold outcome at 1. simpl.
    rewrite bind_ret, outcome_print_bind. unfold outcome. simpl. intros [= <-]. split.
    + intros k. rewrite (elem_of_filter_keys _ _ _ k Em). split.
      * intros (x & -> & Hx & Hk). by rewrite Hx.
      * intros [Hk Hsel]. destruct (filter_keys_strings _ _ _ k Em Hk) as [x ->].
        rewrite andb_true_r in Hsel. by exists x.
    + intros _ ->. by apply Hm.
  - rewrite bind_ret, outcome_bind, outcome_bind. unfold lift at 1, outcome at 1. simpl.
    destruct (filter_keys _ (keys1 ∪ keys2)) as [m'|e] eqn:Em'; [|done].
    destruct (Z.eqb_spec (len m') 0) as [|Hm']; [done|].
    rewrite outcome_print_bind. unfold outcome at 1. simpl.
    rewrite outcome_print_bind. unfold outcome. simpl. intros [= <-]. split.
    + intros k. rewrite (elem_of_filter_keys _ _ _ k Em'). split.
      * intros (x & -> & Hx & Hk). by rewrite Hx.
      * intros [Hk Hsel]. destruct (filter_keys_strings _ _ _ k Em' Hk) as [x ->].
        by exists x.
    + intros _ ->. by apply Hm'.
  - rewrite !bind_ret, outcome_print_bind. unfold outcome. simpl. intros [= <-]. split.
    + intros k. destruct k; tauto.
    + by intros [?|?].
Qed.

Lemma select_keys_selected_witness :
  let keys1 : gset pykey := {[ KStr "h"; KStr "g" ]} in
  let keys2 : gset pykey := {[ KStr "h" ]} in
  (forall k, k ∈ ({[ KStr "h" ]} : gset pykey) <->
             k ∈ keys1 ∪ keys2 /\
             match k with
             | KStr p => selected Sample2.args_plot_h p = true
             | KGen _ _ => True
             end) /\
  (args_plot Sample2.args_plot_h <> None \/ args_plot_exclude Sample2.args_plot_h <> None ->
   ({[ KStr "h" ]} : gset pykey) <> ∅).
Proof.
  intros keys1 keys2.
  apply (select_keys_selected Sample2.args_plot_h keys1 keys2).
  vm_compute. reflexivity.
Defined.

Lemma select_keys_early_return args (keys1 keys2 : gset pykey) (code : Z) :
  outcome (select_keys args keys1 keys2) = Ok (inr code) -> code = value CLARG_ERROR.
Proof.
  unfold select_keys. rewrite outcome_print_bind, outcome_bind.
  destruct (args_plot args) as [plot|].
  - rewrite outcome_bind. unfold lift at 1, outcome at 1. simpl.
    destruct (filter_keys (search plot) (keys1 ∪ keys2)) as [m|e]; [|done].
    destruct (len m =? 0).
    { rewrite outcome_print_bind. unfold outcome. simpl. by intros [= <-]. }
    rewrite outcome_print_bind. unfold outcome at 1. simpl.
    rewrite outcome_bind.
    destruct (args_plot_exclude args) as [excl|].
    + rewrite outcome_bind. unfold lift at 1, outcome at 1. simpl.
      destruct (filter_keys _ m) as [m'|e]; [|done].
      destruct (len m' =? 0); rewrite outcome_print_bind; unfold outcome at 1; simpl.
      * unfold outcome. simpl. by intros [= <-].
      * by rewrite outcome_print_bind.
    + unfold outcome at 1. simpl. by rewrite outcome_print_bind.
  - unfold outcome at 1. simpl. rewrite outcome_bind.
    destruct (args_plot_exclude args) as [excl|].
    + rewrite outcome_bind. unfold lift at 1, outcome at 1. simpl.
      destruct (filter_keys _ _) as [m'|e]; [|done].
      destruct (len m' =? 0); rewrite outcome_print_bind; unfold outcome at 1; simpl.
      * unfold outcome. simpl. by intros [= <-].
      * by rewrite outcome_print_bind.
    + unfold outcome at 1. simpl. by rewrite outcome_print_bind.
Qed.

(** X12.  Whenever [main] returns, it returns no value or one of the
    codes 0, 2, 10, 11, 12, 13; never 1, the status of an uncaught
    exception, and never [INTERNAL_ERROR].  It returns no value only in
    set-only mode, and [EITHER_MISS] only with [--diff]. *)
Theorem main_return_values os run_diff args tf1 tf2 (r : option Z) :
  outcome (main os run_diff args tf1 tf2) = Ok r ->
  (r = None /\ args_diff args = false /\ args_set args = true) \/
  (r = Some (value EITHER_MISS) /\ args_diff args = true) \/
  (exists s, r = Some (value s) /\
             (s = IDENTICAL \/ s = CLARG_ERROR \/ s = FIRST_MISS \/
              s = SECOND_MISS \/ s = DIFFERENCE_COMMON)).
Proof.
  unfold main. destruct ((st_ino tf1 =? st_ino tf2) && (st_dev tf1 =? st_dev tf2)).
  { rewrite outcome_print_bind. unfold outcome. simpl. intros [= <-].
    right. right. exists CLARG_ERROR. tauto. }
  rewrite outcome_bind. destruct (outcome (lift (keys_of_file os 1 tf1))) as [keys1|]; [|done].
  rewrite outcome_bind. destruct (outcome (lift (keys_of_file os 2 tf2))) as [keys2|]; [|done].
  destruct (args_diff args).
  { rewrite outcome_bind. destruct (outcome (diff_full _ _ _)) as [rc|]; [|done].
    destruct (rc =? 1); unfold outcome; simpl; intros [= <-].
    - right. left. done.
    - right. right. exists IDENTICAL. tauto. }
  destruct (args_set args).
  { intros Hr%diff_set_returns. destruct (0 <? len (keys1 ∖ keys2)).
    - right. right. exists SECOND_MISS. tauto.
    - by left. }
  rewrite outcome_bind.
  destruct (outcome (select_keys args keys1 keys2)) as [[m|code]|] eqn:Hsel; [| |done].
  - intros (cs & ->)%compare_selected_returns. right. right. unfold final_status.
    destruct (0 <? BAD cs); [exists DIFFERENCE_COMMON; tauto|].
    destruct (0 <? len _); [exists SECOND_MISS; tauto|].
    destruct (0 <? len _); [exists FIRST_MISS; tauto|exists IDENTICAL; tauto].
  - apply select_keys_early_return in Hsel as ->. unfold outcome. simpl. intros [= <-].
    right. right. exists CLARG_ERROR. tauto.
Qed.

Lemma main_return_values_witness :
  let r := Some (value DIFFERENCE_COMMON) in
  (r = None /\ args_diff (Sample.args_full 1) = false /\ args_set (Sample.args_full 1) = true) \/
  (r = Some (value EITHER_MISS) /\ args_diff (Sample.args_full 1) = true) \/
  (exists s, r = Some (value s) /\
             (s = IDENTICAL \/ s = CLARG_ERROR \/ s = FIRST_MISS \/
              s = SECOND_MISS \/ s = DIFFERENCE_COMMON)).
Proof.
  apply (main_return_values None Sample.diff_ok (Sample.args_full 1)
           (Sample.single 1 "h" Sample.h_empty) (Sample.single 2 "h" Sample.h_filled)).
  vm_compute. reflexivity.
Defined.

(** X13.  With [--diff], whatever the other options, the run maps the
    return code of the [diff] process, run on the sorted keys of the two
    files: 1 gives [EITHER_MISS], 2 prints the error and exits with
    [INTERNAL_ERROR] without printing the standard output of [diff], any
    other code gives [IDENTICAL]. *)
Theorem main_diff_mode os run_diff args tf1 tf2
        (keys1 keys2 : gset pykey) (lines1 lines2 : list string) :
  same_file tf1 tf2 = false ->
  args_diff args = true ->
  keys_of_file os 1 tf1 = Ok keys1 -> keys_of_file os 2 tf2 = Ok keys2 ->
  rbind (sorted keys1) (mapR as_str) = Ok lines1 ->
  rbind (sorted keys2) (mapR as_str) = Ok lines2 ->
  let returncode := fst (run_diff lines1 lines2) in
  let stdout := snd (run_diff lines1 lines2) in
  main os run_diff args tf1 tf2 =
    (if returncode =? 2 then ([PrintErrorInDiff], Raise (SystemExit (value INTERNAL_ERROR)))
     else ([PrintDiffStdout stdout],
           Ok (Some (if returncode =? 1 then value EITHER_MISS else value IDENTICAL)))) /\
  run os run_diff args tf1 tf2 =
    (if returncode =? 2 then 3 else if returncode =? 1 then 10 else 0).
Proof.
  intros Hsame Hd Hk1 Hk2 Hl1 Hl2 returncode stdout.
  assert (main os run_diff args tf1 tf2 =
          (if returncode =? 2
           then ([PrintErrorInDiff], Raise (SystemExit (value INTERNAL_ERROR)))
           else ([PrintDiffStdout stdout],
                 Ok (Some (if returncode =? 1 then value EITHER_MISS else value IDENTICAL)))))
    as Hmain.
  { unfold same_file in Hsame. unfold main.
    rewrite Hsame, Hk1, Hk2, !bind_lift_ok, Hd. unfold diff_full.
    rewrite Hl1, bind_lift_ok, Hl2, bind_lift_ok.
    fold returncode stdout. destruct (returncode =? 2); [done|].
    unfold bind, print, ret. simpl. by destruct (returncode =? 1). }
  split; [done|]. unfold run. rewrite Hmain.
  destruct (returncode =? 2); [done|]. by destruct (returncode =? 1).
Qed.

Lemma main_diff_mode_witness :
  let tf1 := Sample.single 1 "h" Sample.h_empty in
  let tf2 := Sample.single 2 "g" Sample.graph in
  let returncode := fst (Sample.diff_ok ["h"] ["g"]) in
  let stdout := snd (Sample.diff_ok ["h"] ["g"]) in
  main None Sample.diff_ok Sample2.args_diff_only tf1 tf2 =
    (if returncode =? 2 then ([PrintErrorInDiff], Raise (SystemExit (value INTERNAL_ERROR)))
     else ([PrintDiffStdout stdout],
           Ok (Some (if returncode =? 1 then value EITHER_MISS else value IDENTICAL)))) /\
  run None Sample.diff_ok Sample2.args_diff_only tf1 tf2 =
    (if returncode =? 2 then 3 else if returncode =? 1 then 10 else 0).
Proof.
  intros tf1 tf2.
  apply (main_diff_mode None Sample.diff_ok Sample2.args_diff_only tf1 tf2
                        {[ KStr "h" ]} {[ KStr "g" ]} ["h"] ["g"]);
    vm_compute; reflexivity.
Defined.

(** X14.  In set-only mode at verbosity below 2, the exit status is 12
    when some key of the first file is missing from the second, and 0 in
    every other case, also when the second file has keys that the first
    has not. *)
Theorem main_set_mode os run_diff args tf1 tf2 (keys1 keys2 : gset pykey) :
  same_file tf1 tf2 = false ->
  args_diff args = false -> args_set args = true ->
  args_verbosity args < 2 ->
  keys_of_file os 1 tf1 = Ok keys1 -> keys_of_file os 2 tf2 = Ok keys2 ->
  run os run_diff args tf1 tf2 = (if decide (keys1 ⊆ keys2) then 0 else 12).
Proof.
  intros Hsame Hd Hs Hv Hk1 Hk2.
  unfold same_file in Hsame. unfold run, main.
  rewrite Hsame, Hk1, Hk2, Hd, Hs, !bind_lift_ok.
  unfold diff_set. cbv zeta. rewrite diff_set_common_default. simpl.
  destruct (print_missing_returns (keys2 ∖ keys1) (keys1 ∖ keys2) ∅ (keys1 ∪ keys2)
              (args_verbosity args)) as [[] Hpm]; [done|set_solver..|].
  rewrite outcome_bind, Hpm.
  destruct (decide (keys1 ⊆ keys2)) as [Hsub|Hsub].
  - assert (keys1 ∖ keys2 = ∅) as -> by set_solver. reflexivity.
  - assert (keys1 ∖ keys2 <> ∅) as Hne%len_pos_iff.
    { intros Hempty. apply Hsub. intros k Hk. destruct (decide (k ∈ keys2)); [done|].
      assert (k ∈ keys1 ∖ keys2) by set_solver. set_solver. }
    by rewrite Hne.
Qed.

Lemma main_set_mode_witness :
  run None Sample.diff_ok (Sample.args_set_only 1)
      (Sample.single 1 "h" Sample.h_empty) (Sample.no_keys 2) =
  (if decide (({[ KStr "h" ]} : gset pykey) ⊆ ∅) then 0 else 12).
Proof.
  apply (main_set_mode None Sample.diff_ok (Sample.args_set_only 1)
                       (Sample.single 1 "h" Sample.h_empty) (Sample.no_keys 2));
    vm_compute; reflexivity.
Defined.

(** X15.  In set-only mode, two files with the same keys make the run
    print nothing and end with status 0, at every verbosity. *)
Theorem main_set_mode_equal_keys os run_diff args tf1 tf2 (keys : gset pykey) :
  same_file tf1 tf2 = false ->
  args_diff args = false -> args_set args = true ->
  keys_of_file os 1 tf1 = Ok keys -> keys_of_file os 2 tf2 = Ok keys ->
  main os run_diff args tf1 tf2 = ([], Ok None) /\
  run os run_diff args tf1 tf2 = 0.
Proof.
  intros Hsame Hd Hs Hk1 Hk2.
  assert (main os run_diff args tf1 tf2 = ([], Ok None)) as Hmain.
  { unfold same_file in Hsame. unfold main.
    rewrite Hsame, Hk1, Hk2, Hd, Hs, !bind_lift_ok.
    unfold diff_set. cbv zeta. rewrite diff_set_common_default.
    assert (keys ∖ keys = ∅) as -> by set_solver. reflexivity. }
  split; [done|]. unfold run. by rewrite Hmain.
Qed.

Lemma main_set_mode_equal_keys_witness :
  main None Sample.diff_ok (Sample.args_set_only 4)
       (Sample.single 1 "h" Sample.h_empty) (Sample.single 2 "h" Sample.h_filled)
    = ([], Ok None) /\
  run None Sample.diff_ok (Sample.args_set_only 4)
      (Sample.single 1 "h" Sample.h_empty) (Sample.single 2 "h" Sample.h_filled) = 0.
Proof.
  apply (main_set_mode_equal_keys None Sample.diff_ok (Sample.args_set_only 4)
           (Sample.single 1 "h" Sample.h_empty) (Sample.single 2 "h" Sample.h_filled)
           {[ KStr "h" ]}); vm_compute; reflexivity.
Defined.

(** *** Counters and listings *)

Lemma compare_common_total tf1 tf2 v (plots : list pykey) (cs0 cs : content_status) :
  outcome (compare_common tf1 tf2 v plots cs0) = Ok cs ->
  OK cs0 <= OK cs /\ BAD cs0 <= BAD cs /\
  OK cs + BAD cs = OK cs0 + BAD cs0 + Z.of_nat (length plots).
Proof.
  revert cs0. induction plots as [|plot plots IH]; intros cs0; simpl.
  - unfold outcome. simpl. intros [= <-]. lia.
  - rewrite outcome_bind. destruct (outcome (lift (as_str plot))) as [p|]; [|done].
    rewrite outcome_bind. destruct (outcome (lift (get_both tf1 tf2 p))) as [[h1 h2]|]; [|done].
    rewrite outcome_bind.
    destruct (outcome (compare_plot h1 h2 v)) as [ok_content|]; [|done].
    intros Hrest%IH. destruct ok_content as [[|]|]; simpl in Hrest; lia.
Qed.

Lemma sorted_length (s : gset pykey) (plots : list pykey) :
  sorted s = Ok plots -> length plots = size s.
Proof.
  unfold sorted. destruct (length (elements s) <=? 1)%nat.
  - by intros [= <-].
  - destruct (mapR as_str (elements s)) as [strs|e] eqn:E; simpl; [|done].
    apply mapR_as_str in E. intros [= <-].
    rewrite length_fmap, (merge_sort_Permutation string_le strs).
    change (size s) with (length (elements s)). by rewrite E, length_fmap.
Qed.

(** X16.  Every common key is counted exactly once: after the
    comparison loop ['OK'] and ['BAD'] are non-negative and add up to the
    number of common keys, the denominator of [print_content_status]. *)
Theorem content_status_counts_common_keys tf1 tf2 v
        (common : gset pykey) (plots : list pykey) (cs : content_status) :
  sorted common = Ok plots ->
  outcome (compare_common tf1 tf2 v plots {| OK := 0; BAD := 0 |}) = Ok cs ->
  0 <= OK cs /\ 0 <= BAD cs /\ OK cs + BAD cs = len common.
Proof.
  intros Hlen%sorted_length Hcs%compare_common_total. simpl in Hcs.
  unfold len. lia.
Qed.

Lemma content_status_counts_common_keys_witness :
  let cs := {| OK := 0; BAD := 1 |} in
  0 <= OK cs /\ 0 <= BAD cs /\ OK cs + BAD cs = len ({[ KStr "h" ]} : gset pykey).
Proof.
  apply (content_status_counts_common_keys
           (Sample.single 1 "h" Sample.h_empty) (Sample.single 2 "h" Sample.h_filled) 1
           {[ KStr "h" ]} [KStr "h"]); vm_compute; reflexivity.
Defined.

Lemma for_each_print_plot (strs : list string) :
  for_each (fun plot => let* p := lift (as_str plot) in print (PrintPlot p)) (KStr <$> strs) =
  (map PrintPlot strs, Ok tt).
Proof.
  induction strs as [|p strs IH]; [done|]. rewrite fmap_cons. cbn [for_each].
  rewrite IH. reflexivity.
Qed.

Lemma sorted_short (strs : list string) : (length strs <= 1)%nat -> Sorted string_le strs.
Proof.
  destruct strs as [|a [|b strs]]; simpl; intros H; [constructor|repeat constructor|lia].
Qed.

(** X17.  When all keys of a set are strings, its listing prints each
    key exactly once, in ascending order, and ends with an empty line. *)
Theorem print_plots_lists_sorted (s : gset pykey) :
  (forall k, k ∈ s -> exists p, k = KStr p) ->
  exists strs,
    print_plots s = (map PrintPlot strs ++ [PrintBlank], Ok tt) /\
    Sorted string_le strs /\
    NoDup strs /\
    (forall p, p ∈ strs <-> KStr p ∈ s).
Proof.
  intros Hstr.
  destruct (mapR_as_str_strings (elements s)) as [strs0 E].
  { intros k Hk. apply Hstr. by apply elem_of_elements. }
  pose proof (mapR_as_str _ _ E) as Eel.
  assert (Hperm : forall strs, strs ≡ₚ strs0 ->
                    NoDup strs /\ (forall p, p ∈ strs <-> KStr p ∈ s)).
  { intros strs Hp. split.
    - rewrite Hp. apply (NoDup_fmap_1 KStr). rewrite <- Eel. apply NoDup_elements.
    - intros p. rewrite Hp, <- elem_of_elements, Eel.
      by rewrite (list_elem_of_fmap_inj _). }
  unfold print_plots, sorted.
  destruct (length (elements s) <=? 1)%nat eqn:Hlen.
  - exists strs0. rewrite bind_lift_ok, Eel, for_each_print_plot.
    split; [reflexivity|]. split; [|by apply Hperm].
    apply sorted_short. apply Nat.leb_le in Hlen. by rewrite Eel, length_fmap in Hlen.
  - exists (merge_sort string_le strs0). rewrite E. simpl.
    rewrite bind_lift_ok, for_each_print_plot.
    split; [reflexivity|]. split; [apply (Sorted_merge_sort string_le)|].
    apply Hperm, merge_sort_Permutation.
Qed.

Lemma print_plots_lists_sorted_witness :
  exists strs,
    print_plots {[ KStr "h"; KStr "g" ]} = (map PrintPlot strs ++ [PrintBlank], Ok tt) /\
    Sorted string_le strs /\
    NoDup strs /\
    (forall p, p ∈ strs <-> KStr p ∈ ({[ KStr "h"; KStr "g" ]} : gset pykey)).
Proof.
  apply print_plots_lists_sorted. intros k Hk.
  apply elem_of_union in Hk as [->%elem_of_singleton | ->%elem_of_singleton]; by eexists.
Defined.

(** X18.  At verbosity 2 and above, a generator object among the keys
    missing from file 1 makes [print_missing] end in [TypeError], after
    the summary line of that subset. *)
Theorem print_missing_generator_raises
        (missing1 missing2 common all : gset pykey) (verbosity : Z) (f n : nat) :
  2 <= verbosity -> missing1 ⊆ all -> KGen f n ∈ missing1 ->
  outcome (print_missing missing1 missing2 common verbosity (len all)) = Raise TypeError /\
  exists pct, output (print_missing missing1 missing2 common verbosity (len all)) =
              [PrintMissingFrom1 (len missing1) (len all) pct].
Proof.
  intros Hv Hsub Hgen. unfold print_missing.
  replace (2 <=? verbosity) with true by (symmetry; by apply Z.leb_le).
  assert (missing1 <> ∅) as Hne%len_pos_iff by set_solver. rewrite Hne.
  assert (len all <> 0) as Hall.
  { apply Z.ltb_lt in Hne. apply subseteq_size in Hsub. unfold len in *. lia. }
  destruct (int_truediv_ok (100 * len missing1) (len all) Hall) as [pct ->].
  assert (print_plots missing1 = ([], Raise TypeError)) as Hplots.
  { unfold print_plots.
    destruct (sorted missing1) as [plots|e] eqn:Es.
    - rewrite bind_lift_ok.
      assert (KGen f n ∈ plots) as Hin by (by apply (elem_of_sorted _ _ _ Es)).
      assert (plots = elements missing1) as ->.
      { unfold sorted in Es. destruct (length (elements missing1) <=? 1)%nat; [congruence|].
        rewrite (mapR_as_str_generator _ f n) in Es; [done|]. by apply elem_of_elements. }
      destruct (elements missing1) as [|k [|k' l]] eqn:El.
      + by apply elem_of_nil in Hin.
      + apply list_elem_of_singleton in Hin as <-. reflexivity.
      + unfold sorted in Es. rewrite El in Es.
        change (length (k :: k' :: l) <=? 1)%nat with false in Es.
        by rewrite (mapR_as_str_generator _ f n Hin) in Es.
    - apply sorted_raises in Es as ->. reflexivity. }
  rewrite bind_lift_ok. split.
  - rewrite outcome_bind, outcome_print_bind, Hplots. reflexivity.
  - exists pct. rewrite output_bind, output_print_bind, Hplots, outcome_print_bind.
    reflexivity.
Qed.

Lemma print_missing_generator_raises_witness :
  outcome (print_missing {[ KGen 2 0 ]} ∅ ∅ 2 (len ({[ KGen 2 0 ]} : gset pykey)))
    = Raise TypeError /\
  exists pct, output (print_missing {[ KGen 2 0 ]} ∅ ∅ 2 (len ({[ KGen 2 0 ]} : gset pykey))) =
              [PrintMissingFrom1 (len ({[ KGen 2 0 ]} : gset pykey))
                                 (len ({[ KGen 2 0 ]} : gset pykey)) pct].
Proof.
  apply (print_missing_generator_raises {[ KGen 2 0 ]} ∅ ∅ {[ KGen 2 0 ]} 2 2 0);
    [lia | set_solver | set_solver].
Defined.

(** *** The widths of [get_fmt] *)

Lemma length_spaces (n : nat) : String.length (spaces n) = n.
Proof. induction n as [|n IH]; simpl; [done|by rewrite IH]. Qed.

Lemma string_length_app (s1 s2 : string) :
  String.length (s1 ++ s2)%string = (String.length s1 + String.length s2)%nat.
Proof. induction s1 as [|c s1 IH]; simpl; [done|by rewrite IH]. Qed.

Lemma length_format_d (w : nat) (n : Z) :
  String.length (format_d w n) = Nat.max w (len_str n).
Proof.
  unfold format_d. rewrite string_length_app, length_spaces. unfold len_str. lia.
Qed.

(** X19.  With the widths that [get_fmt(a, b, tot)] computes, the two
    counts [a] and [b] are printed in fields of the same width, so that
    the lines for them align, and the total is printed as it is, without
    padding.  A wider number is never truncated. *)
Theorem get_fmt_aligns (a b tot n : Z) :
  let w1 := fst (get_fmt a b tot) in
  let w2 := snd (get_fmt a b tot) in
  String.length (format_d w1 a) = w1 /\
  String.length (format_d w1 b) = w1 /\
  format_d w2 tot = str_int tot /\
  String.length (format_d w1 n) = Nat.max w1 (len_str n).
Proof.
  simpl. rewrite !length_format_d. repeat split; try lia.
  unfold format_d. by rewrite Nat.sub_diag.
Qed.
